(** * homework_bot: a shallow embedding of [homework.py] and its properties

    The bot polls the homework-review API, formats the status of the most
    recent homework and relays it to a Telegram chat.  Every function of
    [homework.py] is embedded below under its own name.  The functions that
    touch the outside world (logging, the HTTP request, the Telegram call,
    sleeping) run in a state-and-exception monad over a [world] that records
    what was done; the answers of the outside world are read from an [env].

    Strings are byte strings holding UTF-8, as the source file does. *)

From Stdlib Require Import String Ascii List ZArith Bool Lia DecimalString.
Import ListNotations.
Local Open Scope string_scope.
Local Open Scope Z_scope.
Set Warnings "-register-all".

(** ** Python values *)

Module Py.

(** The values a decoded JSON body is made of.  A [dict] keeps its items in
    insertion order (the order shows in its [repr]); looking a key up finds
    its first item.  A float is carried by its [repr]. *)
Inductive pyval : Type :=
| PNone
| PBool (b : bool)
| PInt (z : Z)
| PFloat (shown : string)
| PStr (s : string)
| PList (items : list pyval)
| PDict (items : list (string * pyval)).

(** [type(v).__name__] *)
Definition type_name (v : pyval) : string :=
  match v with
  | PNone => "NoneType"
  | PBool _ => "bool"
  | PInt _ => "int"
  | PFloat _ => "float"
  | PStr _ => "str"
  | PList _ => "list"
  | PDict _ => "dict"
  end.

(** [key in d] and [d[key]] ([None] stands for a [KeyError]) *)
Fixpoint dict_get (key : string) (d : list (string * pyval)) : option pyval :=
  match d with
  | [] => None
  | (k, v) :: rest => if String.eqb k key then Some v else dict_get key rest
  end.

Definition dict_has (key : string) (d : list (string * pyval)) : bool :=
  match dict_get key d with Some _ => true | None => false end.

(** The two quote characters and the backslash. *)
Definition squote : ascii := ascii_of_nat 39.
Definition dquote : ascii := ascii_of_nat 34.
Definition backslash : ascii := ascii_of_nat 92.
Definition str1 (c : ascii) : string := String c EmptyString.

Fixpoint has_char (c : ascii) (s : string) : bool :=
  match s with
  | EmptyString => false
  | String a rest => Ascii.eqb a c || has_char c rest
  end.

Definition hex_digit (n : nat) : ascii :=
  ascii_of_nat (if Nat.ltb n 10 then 48 + n else 87 + n).

(** One character of a string inside [repr]: the quote in use and the
    backslash are escaped, control characters are written as Python writes
    them, the bytes of a printable character stand for themselves. *)
Definition repr_char (quote c : ascii) : string :=
  let n := nat_of_ascii c in
  if Ascii.eqb c quote || Ascii.eqb c backslash then String backslash (str1 c)
  else if Nat.eqb n 9 then String backslash "t"
  else if Nat.eqb n 10 then String backslash "n"
  else if Nat.eqb n 13 then String backslash "r"
  else if Nat.ltb n 32 || Nat.eqb n 127
       then String backslash
              (String "x" (String (hex_digit (n / 16)) (str1 (hex_digit (n mod 16)))))
  else str1 c.

Fixpoint repr_chars (quote : ascii) (s : string) : string :=
  match s with
  | EmptyString => EmptyString
  | String c rest => repr_char quote c ++ repr_chars quote rest
  end.

(** [repr] of a [str]: single quotes, unless the text has a single quote
    and no double quote. *)
Definition str_repr (s : string) : string :=
  let quote := if has_char squote s && negb (has_char dquote s)
               then dquote else squote in
  str1 quote ++ repr_chars quote s ++ str1 quote.

Definition int_str (z : Z) : string := NilZero.string_of_int (Z.to_int z).

(** [repr(v)] *)
Fixpoint py_repr (v : pyval) : string :=
  match v with
  | PNone => "None"
  | PBool true => "True"
  | PBool false => "False"
  | PInt z => int_str z
  | PFloat shown => shown
  | PStr s => str_repr s
  | PList items =>
      "[" ++ (fix go (l : list pyval) : string :=
                match l with
                | [] => EmptyString
                | [x] => py_repr x
                | x :: rest => py_repr x ++ ", " ++ go rest
                end) items ++ "]"
  | PDict items =>
      "{" ++ (fix go (l : list (string * pyval)) : string :=
                match l with
                | [] => EmptyString
                | [(k, x)] => str_repr k ++ ": " ++ py_repr x
                | (k, x) :: rest => str_repr k ++ ": " ++ py_repr x ++ ", " ++ go rest
                end) items ++ "}"
  end.

(** [str(v)], which is what an f-string puts in place of [{v}] *)
Definition py_str (v : pyval) : string :=
  match v with
  | PStr s => s
  | _ => py_repr v
  end.

(** [hash(v)] raises [TypeError] for lists and dicts. *)
Definition hashable (v : pyval) : bool :=
  match v with
  | PList _ | PDict _ => false
  | _ => true
  end.

(** [s] occurs in [t] *)
Fixpoint infix (s t : string) : bool :=
  String.prefix s t ||
  match t with
  | EmptyString => false
  | String _ rest => infix s rest
  end.

End Py.
Import Py.

(** ** Exceptions *)

Module Exc.

(** The exception classes the program names, and [Subclass name base] for
    any other class derived from one of them ([telegram.error.NetworkError]
    is [Subclass "NetworkError" TelegramError]). *)
Inductive exn_class : Type :=
| Exception
| TypeError
| KeyError
| AttributeError
| ValueError
| JSONDecodeError
| RequestException
| HTTPError
| Timeout
| ConnectionError
| TelegramError
| MissTokenError
| VerdictErrors
| ResponseError
| Subclass (name : string) (base : exn_class).

(** Modelled from the spec: [exceptions.py], which declares
    [MissTokenError], [VerdictErrors] and [ResponseError], is not among the
    sources.  The spec lists the three as error kinds of their own, next to
    the transport and the delivery errors: each is taken to derive from
    [Exception] directly. *)
Definition project_base : exn_class := Exception.

Definition class_name (c : exn_class) : string :=
  match c with
  | Exception => "Exception"
  | TypeError => "TypeError"
  | KeyError => "KeyError"
  | AttributeError => "AttributeError"
  | ValueError => "ValueError"
  | JSONDecodeError => "JSONDecodeError"
  | RequestException => "RequestException"
  | HTTPError => "HTTPError"
  | Timeout => "Timeout"
  | ConnectionError => "ConnectionError"
  | TelegramError => "TelegramError"
  | MissTokenError => "MissTokenError"
  | VerdictErrors => "VerdictErrors"
  | ResponseError => "ResponseError"
  | Subclass name _ => name
  end.

Fixpoint class_eqb (c d : exn_class) : bool :=
  match c, d with
  | Exception, Exception | TypeError, TypeError | KeyError, KeyError
  | AttributeError, AttributeError | ValueError, ValueError
  | JSONDecodeError, JSONDecodeError | RequestException, RequestException
  | HTTPError, HTTPError | Timeout, Timeout
  | ConnectionError, ConnectionError | TelegramError, TelegramError
  | MissTokenError, MissTokenError | VerdictErrors, VerdictErrors
  | ResponseError, ResponseError => true
  | Subclass n b, Subclass n' b' => String.eqb n n' && class_eqb b b'
  | _, _ => false
  end.

(** The class and the classes it derives from, up to [Exception]. *)
Fixpoint bases (c : exn_class) : list exn_class :=
  c :: match c with
       | Exception => []
       | Subclass _ base => bases base
       | JSONDecodeError => [ValueError; Exception]
       | HTTPError | Timeout | ConnectionError => [RequestException; Exception]
       | MissTokenError | VerdictErrors | ResponseError => [project_base]
       | _ => [Exception]
       end.

Definition issubclass (c d : exn_class) : bool := existsb (class_eqb d) (bases c).

(** An exception: its class, the text it was built with, and
    [__context__], the exception that was being handled when it was
    raised. *)
Inductive exn : Type :=
| Exn (cls : exn_class) (text : string) (context : option exn).

Definition exn_cls (x : exn) : exn_class := let (c, _, _) := x in c.
Definition exn_text (x : exn) : string := let (_, t, _) := x in t.
Definition exn_context (x : exn) : option exn := let (_, _, c) := x in c.

Definition isinstance (x : exn) (c : exn_class) : bool := issubclass (exn_cls x) c.

(** [str(x)]: the text, which a [KeyError] shows as its [repr]. *)
Definition exn_str (x : exn) : string :=
  if isinstance x KeyError then str_repr (exn_text x) else exn_text x.

(** A [raise] inside an [except] block: the new exception remembers the
    handled one. *)
Definition within (handled : exn) (x : exn) : exn :=
  Exn (exn_cls x) (exn_text x) (Some handled).

(** [error(argument)] where [error] is an exception instance, not a
    class: the instance is not callable, and the call raises [TypeError]
    whatever the argument. *)
Definition call_instance (error : exn) (argument : string) : exn :=
  within error
    (Exn TypeError
       (str1 squote ++ class_name (exn_cls error) ++ str1 squote
        ++ " object is not callable") None).

(** [JSONDecodeError(msg)]: the constructor takes [msg], [doc] and [pos],
    and the call with one argument raises [TypeError]. *)
Definition JSONDecodeError_of_msg (msg : string) : exn :=
  Exn TypeError
    ("__init__() missing 2 required positional arguments: "
     ++ str_repr "doc" ++ " and " ++ str_repr "pos") None.

Inductive result (A : Type) : Type :=
| Ok (a : A)
| Raise (x : exn).
Arguments Ok {A} a.
Arguments Raise {A} x.

End Exc.
Import Exc.

(** ** The outside world *)

Inductive level : Type := DEBUG | INFO | WARNING | ERROR | CRITICAL.

(** One [requests.get] call. *)
Record http_request : Type := mkRequest {
  url : string;
  headers : list (string * string);
  from_date : Z }.

(** What [requests.get] does: it raises, or it gives a response with its
    [status_code] and with what [response.json()] will do. *)
Inductive http_outcome : Type :=
| Fails (error : exn)
| Responds (status_code : Z) (json : result pyval).

(** A [telegram.Bot]: what its [send_message] does at its n-th call for a
    chat and a text, [None] for a delivered message. *)
Record Bot : Type := mkBot {
  bot_send_message : nat -> option string -> string -> option exn }.

(** What the program reads from outside: the process environment (after
    [load_dotenv]), the HTTP endpoint at its n-th request, the Telegram
    client library, and the clock with the offset of local time to UTC,
    both in seconds. *)
Record env : Type := mkEnv {
  environ : list (string * string);
  requests_get : nat -> http_request -> http_outcome;
  telegram_Bot : option string -> result Bot;
  time_time : Z;
  utc_offset : Z }.

(** What the program has done so far, oldest first, and the one variable
    of [main] that the loop assigns, [current_status]. *)
Record world : Type := mkWorld {
  current_status : string;
  log : list (level * string);
  requests : list http_request;
  sent : list (option string * string);
  slept : list Z }.

Definition start : world := mkWorld EmptyString [] [] [] [].

(** ** Computations: state that survives an exception *)

Definition M (A : Type) : Type := world -> result A * world.

Definition ret {A} (a : A) : M A := fun w => (Ok a, w).
Definition raise {A} (x : exn) : M A := fun w => (Raise x, w).
Definition bind {A B} (c : M A) (k : A -> M B) : M B :=
  fun w => match c w with
           | (Ok a, w') => k a w'
           | (Raise x, w') => (Raise x, w')
           end.
Definition lift {A} (r : result A) : M A := fun w => (r, w).

Notation "x <- c ;; k" := (bind c (fun x => k))
  (at level 61, c at next level, right associativity).
Notation "c ;; k" := (bind c (fun _ => k))
  (at level 61, right associativity).

(** [try: body  except ...:], the handlers given as one function that
    answers [None] when no clause matches. *)
Definition try_except {A} (body : M A) (handlers : exn -> option (M A)) : M A :=
  fun w => match body w with
           | (Ok a, w') => (Ok a, w')
           | (Raise x, w') =>
               match handlers x with
               | Some handler => handler w'
               | None => (Raise x, w')
               end
           end.

Definition logging (l : level) (text : string) : M unit :=
  fun w => (Ok tt, mkWorld (current_status w) (log w ++ [(l, text)])
                           (requests w) (sent w) (slept w)).

Definition time_sleep (seconds : Z) : M unit :=
  fun w => (Ok tt, mkWorld (current_status w) (log w) (requests w) (sent w)
                           (slept w ++ [seconds])).

Definition get_current_status : M string := fun w => (Ok (current_status w), w).

Definition set_current_status (s : string) : M unit :=
  fun w => (Ok tt, mkWorld s (log w) (requests w) (sent w) (slept w)).

(** [bot.send_message(chat_id, text)] *)
Definition Bot_send_message (bot : Bot) (chat_id : option string) (text : string)
  : M unit :=
  fun w =>
    let w' := mkWorld (current_status w) (log w) (requests w)
                      (sent w ++ [(chat_id, text)]) (slept w) in
    match bot_send_message bot (length (sent w)) chat_id text with
    | None => (Ok tt, w')
    | Some x => (Raise x, w')
    end.

(** ** The program *)

Section Homework.

Variable e : env.

Fixpoint os_getenv_in (vars : list (string * string)) (name : string)
  : option string :=
  match vars with
  | [] => None
  | (k, v) :: rest => if String.eqb k name then Some v else os_getenv_in rest name
  end.

Definition os_getenv (name : string) : option string :=
  os_getenv_in (environ e) name.

Definition TOKENS_NAMES : list string :=
  ["PRACTICUM_TOKEN"; "TELEGRAM_TOKEN"; "TELEGRAM_CHAT_ID"].
Definition PRACTICUM_TOKEN : option string := os_getenv "PRACTICUM_TOKEN".
Definition TELEGRAM_TOKEN : option string := os_getenv "TELEGRAM_TOKEN".
Definition TELEGRAM_CHAT_ID : option string := os_getenv "TELEGRAM_CHAT_ID".

(** An f-string field holding a value of [os.getenv]. *)
Definition optional_str (t : option string) : string :=
  match t with Some s => s | None => "None" end.

Definition RETRY_PERIOD : Z := 600.
Definition ENDPOINT : string :=
  "https://practicum.yandex.ru/api/user_api/homework_statuses/".
Definition HEADERS : list (string * string) :=
  [("Authorization", "OAuth " ++ optional_str PRACTICUM_TOKEN)].
Definition HOMEWORK_VERDICTS : list (string * string) :=
  [("approved", "Работа проверена: ревьюеру всё понравилось. Ура!");
   ("reviewing", "Работа взята на проверку ревьюером.");
   ("rejected", "Работа проверена: у ревьюера есть замечания.")].

Fixpoint verdict_of (table : list (string * string)) (status : string)
  : option string :=
  match table with
  | [] => None
  | (k, v) :: rest => if String.eqb k status then Some v else verdict_of rest status
  end.

(** [not x] for a value of [os.getenv] *)
Definition falsy (t : option string) : bool :=
  match t with
  | None => true
  | Some s => String.eqb s EmptyString
  end.

Definition check_tokens : M pyval :=
  let tokens := [PRACTICUM_TOKEN; TELEGRAM_TOKEN; TELEGRAM_CHAT_ID] in
  if negb (forallb (fun x => negb (falsy x)) tokens) then
    let none_tikens :=
      map fst (filter (fun ix => falsy (snd ix)) (combine TOKENS_NAMES tokens)) in
    let text := "Отсутствуют токены: " ++ py_str (PList (map PStr none_tikens)) in
    logging CRITICAL text ;;
    raise (Exn MissTokenError text None)
  else ret PNone.

Definition send_message (bot : Bot) (message : string) : M pyval :=
  try_except
    (Bot_send_message bot TELEGRAM_CHAT_ID message ;;
     logging DEBUG "Сообщение отправлено успешно" ;;
     ret PNone)
    (fun error =>
       if isinstance error TelegramError then
         Some (logging ERROR ("Ошибка при отправки сообщения: " ++ exn_str error) ;;
               raise (call_instance error
                        ("Ошибка при отправки сообщения: " ++ exn_str error)))
       else None).

(** [requests.get(url, headers=..., params={'from_date': timestamp})]:
    the response is its [status_code] and what [response.json()] does. *)
Definition Requests_get (u : string) (h : list (string * string)) (timestamp : Z)
  : M (Z * result pyval) :=
  fun w =>
    let request := mkRequest u h timestamp in
    let w' := mkWorld (current_status w) (log w) (requests w ++ [request])
                      (sent w) (slept w) in
    match requests_get e (length (requests w)) request with
    | Fails x => (Raise x, w')
    | Responds status_code json => (Ok (status_code, json), w')
    end.

(** [response.keys()] *)
Definition keys (response : pyval) : result (list (string * pyval)) :=
  match response with
  | PDict items => Ok items
  | _ => Raise (Exn AttributeError
                  (str_repr (type_name response) ++ " object has no attribute "
                   ++ str_repr "keys") None)
  end.

Definition get_api_answer (timestamp : Z) : M pyval :=
  try_except
    (response <- Requests_get ENDPOINT HEADERS timestamp ;;
     let (status_code, json) := response in
     if negb (status_code =? 200) then
       raise (Exn ResponseError
                ("Неверный ответ " ++ ENDPOINT ++ ": " ++ int_str status_code) None)
     else
       response <- lift json ;;
       items <- lift (keys response) ;;
       match dict_get "error" items with
       | Some error =>
           raise (Exn ResponseError
                    ("Неверный ответ " ++ ENDPOINT ++ ": " ++ py_str error) None)
       | None =>
           match dict_get "code" items with
           | Some code =>
               raise (Exn ResponseError
                        ("Неверный ответ " ++ ENDPOINT ++ ": " ++ py_str code) None)
           | None => ret response
           end
       end)
    (fun error =>
       if isinstance error JSONDecodeError then
         Some (raise (within error
                        (JSONDecodeError_of_msg
                           ("Ошибка при декорировании в JSON: "
                            ++ "<class 'json.decoder.JSONDecodeError'>"))))
       else if isinstance error HTTPError then
         Some (raise (call_instance error ("Http Error: " ++ exn_str error)))
       else if isinstance error Timeout then
         Some (raise (call_instance error ("Timeout Error: " ++ exn_str error)))
       else if isinstance error ConnectionError then
         Some (raise (call_instance error ("Ошибка соединения: " ++ exn_str error)))
       else if isinstance error RequestException then
         Some (raise (call_instance error ("Недоступность эндпоинта: " ++ exn_str error)))
       else None).

Definition check_response (response : pyval) : result (list pyval) :=
  match response with
  | PDict items =>
      match dict_get "homeworks" items with
      | None =>
          Raise (Exn KeyError
                   ("Отсутствие ожидаемых ключей в ответе API: "
                    ++ "<class 'KeyError'>") None)
      | Some (PList homeworks) => Ok homeworks
      | Some _ => Raise (Exn TypeError "Значение под ключем homeworks не list" None)
      end
  | _ => Raise (Exn TypeError "Полученные ответ от API не является словарем" None)
  end.

(** [v[key]] for a [str] key, with the messages of CPython 3.9 *)
Definition getitem (v : pyval) (key : string) : result pyval :=
  match v with
  | PDict items =>
      match dict_get key items with
      | Some x => Ok x
      | None => Raise (Exn KeyError key None)
      end
  | PList _ =>
      Raise (Exn TypeError "list indices must be integers or slices, not str" None)
  | PStr _ => Raise (Exn TypeError "string indices must be integers" None)
  | _ =>
      Raise (Exn TypeError
               (str_repr (type_name v) ++ " object is not subscriptable") None)
  end.

(** [status in HOMEWORK_VERDICTS.keys()] with [HOMEWORK_VERDICTS[status]]:
    the key is hashed first, and only a [str] equals a key of the table. *)
Definition find_verdict (status : pyval) : result (option string) :=
  if hashable status then
    match status with
    | PStr s => Ok (verdict_of HOMEWORK_VERDICTS s)
    | _ => Ok None
    end
  else Raise (Exn TypeError ("unhashable type: " ++ str_repr (type_name status)) None).

Definition parse_status (homework : pyval) : result string :=
  let fields :=
    match getitem homework "status" with
    | Raise x => Raise x
    | Ok status =>
        match getitem homework "homework_name" with
        | Raise x => Raise x
        | Ok homework_name => Ok (status, homework_name)
        end
    end in
  match fields with
  | Raise x =>
      if isinstance x KeyError then
        Raise (within x
                 (Exn KeyError "Отсутствие необходимых ключей status и homework_name"
                      None))
      else Raise x
  | Ok (status, homework_name) =>
      match find_verdict status with
      | Raise x => Raise x
      | Ok (Some verdict) =>
          Ok ("Изменился статус проверки работы " ++ str1 dquote
              ++ py_str homework_name ++ str1 dquote ++ ". " ++ verdict)
      | Ok None =>
          Raise (Exn VerdictErrors
                   ("Неожиданный статус домашней работы,"
                    ++ "обнаруженный в ответе API " ++ py_str status) None)
      end
  end.

(** [datetime.date.today()], as the number of the local day since
    1970-01-01, and [int(time.mktime(day.timetuple()))], the second at
    which that local day begins. *)
Definition date_today : Z := (time_time e + utc_offset e) / 86400.
Definition time_mktime (day : Z) : Z := day * 86400 - utc_offset e.

(** One turn of the [while True] loop of [main]. *)
Definition poll_cycle (bot : Bot) (timestamp : Z) : M unit :=
  try_except
    (response <- get_api_answer timestamp ;;
     homeworks <- lift (check_response response) ;;
     match homeworks with
     | first :: _ =>
         verdict <- lift (parse_status first) ;;
         current <- get_current_status ;;
         if negb (String.eqb current verdict) then
           set_current_status verdict ;;
           current <- get_current_status ;;
           send_message bot current ;;
           ret tt
         else logging DEBUG "В ответе отсутствует новый статус"
     | [] => ret tt
     end)
    (fun error =>
       if isinstance error TelegramError then Some (ret tt)
       else if isinstance error Exception then
         Some (logging ERROR ("Сбой в работе программы: " ++ exn_str error) ;;
               let message := "Сбой в работе программы: " ++ exn_str error in
               send_message bot message ;;
               ret tt)
       else None) ;;
  time_sleep RETRY_PERIOD.

(** [while True: body], followed for [cycles] turns: [Ok] says the loop is
    still turning, [Raise] that an exception has left it. *)
Fixpoint while_True (cycles : nat) (body : M unit) : M unit :=
  match cycles with
  | O => ret tt
  | S n => body ;; while_True n body
  end.

Definition initial_timestamp : Z :=
  let timestamp := date_today - 30 in
  time_mktime timestamp.

Definition main (cycles : nat) : M unit :=
  check_tokens ;;
  set_current_status EmptyString ;;
  bot <- try_except
           (lift (telegram_Bot e TELEGRAM_TOKEN))
           (fun error =>
              if isinstance error Exception then
                Some (logging ERROR
                        ("Бот некорректно проинициализировался : " ++ exn_str error) ;;
                      raise (call_instance error
                               ("Бот некорректно проинициализировался : "
                                ++ exn_str error)))
              else None) ;;
  let timestamp := initial_timestamp in
  while_True cycles (poll_cycle bot timestamp).

End Homework.

(** The text a verdict is announced with, as [parse_status] builds it. *)
Definition announcement (homework_name verdict : string) : string :=
  "Изменился статус проверки работы " ++ str1 dquote ++ homework_name
  ++ str1 dquote ++ ". " ++ verdict.

(** The n-th request, made with [timestamp], is answered with status 200
    and a dict without [error] and [code] whose [homeworks] is a list that
    begins with [first]. *)
Definition observes (e : env) (n : nat) (timestamp : Z) (first : pyval) : Prop :=
  exists items rest,
    requests_get e n (mkRequest ENDPOINT (HEADERS e) timestamp)
    = Responds 200 (Ok (PDict items))
    /\ dict_get "error" items = None
    /\ dict_get "code" items = None
    /\ dict_get "homeworks" items = Some (PList (first :: rest)).

(** The record is a dict whose [status] and [homework_name] are the given
    strings. *)
Definition has_status (record : pyval) (status name : string) : Prop :=
  exists items,
    record = PDict items
    /\ dict_get "status" items = Some (PStr status)
    /\ dict_get "homework_name" items = Some (PStr name).

(** The n-th poll finds, first in the list, a homework with this status
    and name. *)
Definition polled (e : env) (n : nat) (timestamp : Z) (status name : string) : Prop :=
  exists first, observes e n timestamp first /\ has_status first status name.

(** The computation makes the requests [made], in this order, and no
    other, whatever it returns or raises. *)
Definition requesting {A} (c : M A) (made : list http_request) : Prop :=
  forall w, requests (snd (c w)) = (requests w ++ made)%list.

(** What the endpoint answers to the request that comes next. *)
Definition next_answer (e : env) (timestamp : Z) (w : world) : http_outcome :=
  requests_get e (length (requests w)) (mkRequest ENDPOINT (HEADERS e) timestamp).

(** [s] is, or lies somewhere inside, the value [v]. *)
Fixpoint mentions (s : string) (v : pyval) : bool :=
  match v with
  | PStr t => String.eqb s t
  | PList items => existsb (mentions s) items
  | PDict items => existsb (fun item => mentions s (snd item)) items
  | _ => false
  end.

(** The result [r] hands the three credentials to the caller. *)
Definition returns_tokens (e : env) (r : result pyval) : Prop :=
  exists v, r = Ok v
            /\ forall token, In token [PRACTICUM_TOKEN e; TELEGRAM_TOKEN e;
                                       TELEGRAM_CHAT_ID e] ->
                             exists s, token = Some s /\ mentions s v = true.

(** ** Sample surroundings, for running the program *)

Module Sample.

Definition homework (status name : string) : pyval :=
  PDict [("id", PInt 124); ("status", PStr status); ("homework_name", PStr name);
         ("reviewer_comment", PStr "ok")].

Definition body (status name : string) : pyval :=
  PDict [("homeworks", PList [homework status name]);
         ("current_date", PInt 1700000123)].

Definition variables : list (string * string) :=
  [("PRACTICUM_TOKEN", "y0_practicum"); ("TELEGRAM_TOKEN", "3141:bot");
   ("TELEGRAM_CHAT_ID", "271828")].

(** Two polls find the homework under review, the later ones approved. *)
Definition review_then_approval (n : nat) (_ : http_request) : http_outcome :=
  match n with
  | 0%nat | 1%nat => Responds 200 (Ok (body "reviewing" "hw05"))
  | _ => Responds 200 (Ok (body "approved" "hw05"))
  end.

Definition always (outcome : http_outcome) (_ : nat) (_ : http_request)
  : http_outcome := outcome.

Definition delivering : Bot := mkBot (fun _ _ _ => None).

Definition chat_not_found : exn := Exn TelegramError "Chat not found" None.

(** Telegram refuses every message. *)
Definition refusing : Bot := mkBot (fun _ _ _ => Some chat_not_found).

(** Telegram refuses the first message and delivers the later ones. *)
Definition refusing_once : Bot :=
  mkBot (fun n _ _ => match n with O => Some chat_not_found | _ => None end).

(** A process started at 2023-11-14 22:13:20 UTC, in a UTC time zone. *)
Definition surroundings (vars : list (string * string))
           (endpoint : nat -> http_request -> http_outcome) (bot : Bot) : env :=
  mkEnv vars endpoint (fun _ => Ok bot) 1700000000 0.

End Sample.

(** ** Notions for the properties of the loop *)

(** The turn fails with [x] before anything is announced: the request
    raises [x], which is not a [TelegramError]; or the response does not
    pass [check_response]; or its first homework does not pass
    [parse_status]. *)
Definition turn_fails (e : env) (timestamp : Z) (w : world) (x : exn) : Prop :=
  (fst (get_api_answer e timestamp w) = Raise x
   /\ isinstance x TelegramError = false)
  \/ exists response,
       fst (get_api_answer e timestamp w) = Ok response
       /\ (check_response response = Raise x
           \/ exists first rest,
                check_response response = Ok (first :: rest)
                /\ parse_status first = Raise x).

(** The failure notice [main] sends for an exception. *)
Definition failure_notice (x : exn) : string :=
  "Сбой в работе программы: " ++ exn_str x.

(** The computation leaves one field of the world as it was, whatever it
    returns or raises. *)
Definition preserves {A X} (field : world -> X) (c : M A) : Prop :=
  forall w, field (snd (c w)) = field w.

(** The computation keeps a property of [current_status]. *)
Definition status_kept {A} (P : string -> Prop) (c : M A) : Prop :=
  forall w, P (current_status w) -> P (current_status (snd (c w))).

(** The text is empty, or announces a verdict of the table for some
    homework. *)
Definition announced (s : string) : Prop :=
  s = EmptyString
  \/ exists name verdict,
       In verdict (map snd HOMEWORK_VERDICTS) /\ s = announcement name verdict.

(** A call of the bot as [main] makes them: to the chat of
    [TELEGRAM_CHAT_ID], with the announcement of a verdict of the table or
    with a failure notice. *)
Definition expected_call (e : env) (call : option string * string) : Prop :=
  fst call = TELEGRAM_CHAT_ID e
  /\ ((exists name verdict,
          In verdict (map snd HOMEWORK_VERDICTS)
          /\ snd call = announcement name verdict)
      \/ exists x, snd call = failure_notice x).

(** The computation calls the bot in the expected way only. *)
Definition calling {A} (e : env) (c : M A) : Prop :=
  forall w, exists calls,
    sent (snd (c w)) = (sent w ++ calls)%list /\ Forall (expected_call e) calls.

Module Trouble.

Definition invalid_token : exn :=
  Exn (Subclass "InvalidToken" TelegramError) "Invalid token" None.

(** The Telegram client cannot be built. *)
Definition without_bot : env :=
  mkEnv Sample.variables Sample.review_then_approval
        (fun _ => Raise invalid_token) 1700000000 0.

(** The endpoint is down and answers 503 to every request. *)
Definition endpoint_down (bot : Bot) : env :=
  Sample.surroundings Sample.variables
    (Sample.always (Responds 503 (Raise (Exn JSONDecodeError "Expecting value" None))))
    bot.

(** The bot's library fails with an error that is not Telegram's. *)
Definition broken : Bot :=
  mkBot (fun _ _ _ => Some (Exn (Subclass "RuntimeError" Exception) "event loop closed" None)).

End Trouble.

(** * Properties *)

(** ** Occurrences of one text in another *)

Lemma prefix_app (s q : string) : String.prefix s (s ++ q) = true.
Proof.
  induction s as [|c s IH]; simpl.
  - now destruct q.
  - destruct (ascii_dec c c) as [_|ne]; [exact IH | now elim ne].
Qed.

Lemma infix_prefix (s t : string) : String.prefix s t = true -> infix s t = true.
Proof. intros H. destruct t; cbn [infix]; rewrite H; reflexivity. Qed.

Lemma infix_app (p s q : string) : infix s (p ++ s ++ q) = true.
Proof.
  induction p as [|c p IH]; simpl.
  - apply infix_prefix, prefix_app.
  - rewrite IH. apply orb_true_r.
Qed.

Lemma append_nil_r (s : string) : s ++ EmptyString = s.
Proof. induction s; simpl; congruence. Qed.

Lemma append_assoc (a b c : string) : (a ++ b) ++ c = a ++ b ++ c.
Proof. induction a; simpl; congruence. Qed.

Lemma infix_middle (p s q t : string) : t = p ++ s ++ q -> infix s t = true.
Proof. intros ->. apply infix_app. Qed.

Lemma infix_end (p s t : string) : t = p ++ s -> infix s t = true.
Proof. intros ->. apply (infix_middle p s EmptyString). now rewrite append_nil_r. Qed.

Lemma prefix_split (s t : string) :
  String.prefix s t = true -> exists q, t = s ++ q.
Proof.
  revert t. induction s as [|c s IH]; intros t H.
  - now exists t.
  - destruct t as [|d t]; simpl in H; [discriminate|].
    destruct (ascii_dec c d) as [->|]; [|discriminate].
    destruct (IH t H) as [q ->]. now exists q.
Qed.

Lemma infix_split (s t : string) :
  infix s t = true -> exists p q, t = p ++ s ++ q.
Proof.
  induction t as [|c t IH]; cbn [infix]; intros H.
  - rewrite orb_false_r in H. destruct (prefix_split _ _ H) as [q E].
    exists EmptyString, q. exact E.
  - apply orb_true_iff in H. destruct H as [H|H].
    + destruct (prefix_split _ _ H) as [q E]. exists EmptyString, q. exact E.
    + destruct (IH H) as (p & q & ->). now exists (String c p), q.
Qed.

(** ** The status formatter *)

Lemma verdict_of_known (status verdict : string) :
  verdict_of HOMEWORK_VERDICTS status = Some verdict <->
  In (status, verdict) HOMEWORK_VERDICTS.
Proof.
  unfold HOMEWORK_VERDICTS. cbn [verdict_of In]. split.
  - destruct (String.eqb_spec "approved" status) as [<-|_];
      [intros [= <-]; auto|].
    destruct (String.eqb_spec "reviewing" status) as [<-|_];
      [intros [= <-]; auto|].
    destruct (String.eqb_spec "rejected" status) as [<-|_];
      [intros [= <-]; auto 6|discriminate].
  - intros [[= <- <-]|[[= <- <-]|[[= <- <-]|[]]]]; reflexivity.
Qed.

Lemma verdict_of_unknown (status : string) :
  status <> "approved" -> status <> "reviewing" -> status <> "rejected" ->
  verdict_of HOMEWORK_VERDICTS status = None.
Proof.
  intros A B C. unfold HOMEWORK_VERDICTS. cbn [verdict_of].
  destruct (String.eqb_spec "approved" status); [now subst|].
  destruct (String.eqb_spec "reviewing" status); [now subst|].
  destruct (String.eqb_spec "rejected" status); [now subst|].
  reflexivity.
Qed.

Lemma parse_status_fields (items : list (string * pyval)) (status name : pyval) :
  dict_get "status" items = Some status ->
  dict_get "homework_name" items = Some name ->
  parse_status (PDict items) =
  match find_verdict status with
  | Raise x => Raise x
  | Ok (Some verdict) => Ok (announcement (py_str name) verdict)
  | Ok None =>
      Raise (Exn VerdictErrors
               ("Неожиданный статус домашней работы,"
                ++ "обнаруженный в ответе API " ++ py_str status) None)
  end.
Proof.
  intros Hs Hn. unfold parse_status, getitem. rewrite Hs, Hn. reflexivity.
Qed.

(** C5.  [parse_status] raises a [KeyError] when the record lacks [status]
    or [homework_name].  When both are there, a status of the verdict table
    (which holds exactly [approved], [reviewing] and [rejected]) gives the
    announcement, in which the homework name and the verdict of the table
    occur; a status string outside the table raises [VerdictErrors] with a
    message in which that status occurs. *)
Theorem parse_status_verdicts :
  (forall items,
      dict_get "status" items = None \/ dict_get "homework_name" items = None ->
      exists x, parse_status (PDict items) = Raise x /\ exn_cls x = KeyError)
  /\ map fst HOMEWORK_VERDICTS = ["approved"; "reviewing"; "rejected"]
  /\ (forall items status name verdict,
         dict_get "status" items = Some (PStr status) ->
         dict_get "homework_name" items = Some (PStr name) ->
         In (status, verdict) HOMEWORK_VERDICTS ->
         exists sentence,
           parse_status (PDict items) = Ok sentence
           /\ sentence = announcement name verdict
           /\ infix name sentence = true
           /\ infix verdict sentence = true)
  /\ (forall items status name,
         dict_get "status" items = Some (PStr status) ->
         dict_get "homework_name" items = Some name ->
         ~ In status (map fst HOMEWORK_VERDICTS) ->
         exists text,
           parse_status (PDict items) = Raise (Exn VerdictErrors text None)
           /\ infix status text = true).
Proof.
  split; [|split; [reflexivity|split]].
  - intros items H. unfold parse_status, getitem.
    destruct (dict_get "status" items) as [s|] eqn:Hs.
    + destruct H as [H|H]; [discriminate|]. rewrite H.
      eexists. split; reflexivity.
    + eexists. split; reflexivity.
  - intros items status name verdict Hs Hn Hin.
    apply verdict_of_known in Hin.
    rewrite (parse_status_fields _ _ _ Hs Hn). unfold find_verdict.
    cbn [hashable py_str]. rewrite Hin. eexists. split; [reflexivity|]. split; [reflexivity|].
    split.
    + apply (infix_middle ("Изменился статус проверки работы " ++ str1 dquote)
                          name (str1 dquote ++ ". " ++ verdict)).
      reflexivity.
    + apply (infix_end ("Изменился статус проверки работы " ++ str1 dquote
                          ++ name ++ str1 dquote ++ ". ")).
      unfold announcement. now rewrite !append_assoc.
  - intros items status name Hs Hn Hout.
    rewrite (parse_status_fields _ _ _ Hs Hn). unfold find_verdict.
    cbn [hashable py_str]. rewrite verdict_of_unknown.
    + eexists. split; [reflexivity|].
      apply (infix_end ("Неожиданный статус домашней работы,"
                          ++ "обнаруженный в ответе API ")).
      reflexivity.
    + intros ->. apply Hout. simpl. auto.
    + intros ->. apply Hout. simpl. auto.
    + intros ->. apply Hout. simpl. auto.
Qed.

Lemma parse_status_verdicts_witness :
  parse_status (PDict [("homework_name", PStr "hw05"); ("status", PStr "approved")])
  = Ok (announcement "hw05" "Работа проверена: ревьюеру всё понравилось. Ура!")
  /\ (exists x, parse_status (PDict [("status", PStr "approved")]) = Raise x
                /\ exn_cls x = KeyError)
  /\ (exists text,
         parse_status (PDict [("homework_name", PStr "hw05"); ("status", PStr "lost")])
         = Raise (Exn VerdictErrors text None)
         /\ infix "lost" text = true).
Proof.
  destruct parse_status_verdicts as (Hkey & _ & Hknown & Hunknown).
  split; [|split].
  - destruct (Hknown [("homework_name", PStr "hw05"); ("status", PStr "approved")]
                "approved" "hw05"
                "Работа проверена: ревьюеру всё понравилось. Ура!"
                eq_refl eq_refl (or_introl eq_refl)) as (s & E & -> & _).
    exact E.
  - apply Hkey. right. reflexivity.
  - apply (Hunknown _ "lost" (PStr "hw05")); [reflexivity|reflexivity|].
    simpl. intros [H|[H|[H|[]]]]; discriminate H.
Defined.

(** C10.  [parse_status] reads nothing of a record but [status] and
    [homework_name]: two records that agree on these two fields (what each
    holds, or that it is missing) give the same outcome, the same sentence
    or the same exception. *)
Theorem parse_status_two_fields (r1 r2 : list (string * pyval)) :
  dict_get "status" r1 = dict_get "status" r2 ->
  dict_get "homework_name" r1 = dict_get "homework_name" r2 ->
  parse_status (PDict r1) = parse_status (PDict r2).
Proof.
  intros Hs Hn. unfold parse_status, getitem. rewrite Hs, Hn. reflexivity.
Qed.

Lemma parse_status_two_fields_witness :
  parse_status (PDict [("id", PInt 7); ("status", PStr "rejected");
                       ("homework_name", PStr "hw05"); ("lesson_name", PStr "bot")])
  = parse_status (PDict [("homework_name", PStr "hw05"); ("status", PStr "rejected");
                         ("reviewer_comment", PStr "fix the loop")]).
Proof. apply parse_status_two_fields; reflexivity. Defined.

(** ** The response validator *)

(** C6.  [check_response] raises a [TypeError] for a response that is not a
    dict (a list, [None]), a [KeyError] for a dict without [homeworks], a
    [TypeError] when what [homeworks] holds is not a list (a string, an
    integer), and otherwise returns the list under [homeworks] as it is. *)
Theorem check_response_shape :
  (forall response,
      (forall items, response <> PDict items) ->
      exists x, check_response response = Raise x /\ exn_cls x = TypeError)
  /\ (forall items,
         dict_get "homeworks" items = None ->
         exists x, check_response (PDict items) = Raise x /\ exn_cls x = KeyError)
  /\ (forall items value,
         dict_get "homeworks" items = Some value ->
         (forall homeworks, value <> PList homeworks) ->
         exists x, check_response (PDict items) = Raise x /\ exn_cls x = TypeError)
  /\ (forall items homeworks,
         dict_get "homeworks" items = Some (PList homeworks) ->
         check_response (PDict items) = Ok homeworks).
Proof.
  split; [|split; [|split]].
  - intros response H.
    destruct response; try (eexists; split; reflexivity).
    now elim (H items).
  - intros items H. unfold check_response. rewrite H. eexists. split; reflexivity.
  - intros items value H Hnot. unfold check_response. rewrite H.
    destruct value; try (eexists; split; reflexivity).
    now elim (Hnot items0).
  - intros items homeworks H. unfold check_response. rewrite H. reflexivity.
Qed.

Lemma check_response_shape_witness :
  (exists x, check_response (PList [PInt 1]) = Raise x /\ exn_cls x = TypeError)
  /\ (exists x, check_response PNone = Raise x /\ exn_cls x = TypeError)
  /\ (exists x, check_response (PDict [("current_date", PInt 1)]) = Raise x
                /\ exn_cls x = KeyError)
  /\ (exists x, check_response (PDict [("homeworks", PStr "none")]) = Raise x
                /\ exn_cls x = TypeError)
  /\ (exists x, check_response (PDict [("homeworks", PInt 3)]) = Raise x
                /\ exn_cls x = TypeError)
  /\ check_response (PDict [("homeworks", PList [PInt 2; PInt 1; PInt 2])])
     = Ok [PInt 2; PInt 1; PInt 2].
Proof.
  destruct check_response_shape as (Hmap & Hkey & Hlist & Hok).
  split; [|split; [|split; [|split; [|split]]]].
  - apply Hmap. discriminate.
  - apply Hmap. discriminate.
  - apply Hkey. reflexivity.
  - apply (Hlist _ (PStr "none")); [reflexivity|discriminate].
  - apply (Hlist _ (PInt 3)); [reflexivity|discriminate].
  - apply Hok. reflexivity.
Defined.

(** ** The credential check *)

Lemma check_tokens_missing (e : env) (w : world) :
  existsb falsy [PRACTICUM_TOKEN e; TELEGRAM_TOKEN e; TELEGRAM_CHAT_ID e] = true ->
  exists text,
    check_tokens e w
    = (Raise (Exn MissTokenError text None),
       mkWorld (current_status w) (log w ++ [(CRITICAL, text)]) (requests w)
               (sent w) (slept w))
    /\ forall name token,
         In (name, token)
            (combine TOKENS_NAMES
                     [PRACTICUM_TOKEN e; TELEGRAM_TOKEN e; TELEGRAM_CHAT_ID e]) ->
         (infix name text = true <-> falsy token = true).
Proof.
  unfold check_tokens, TOKENS_NAMES.
  cbn [existsb forallb combine filter snd fst map].
  destruct (falsy (PRACTICUM_TOKEN e)) eqn:HP;
    destruct (falsy (TELEGRAM_TOKEN e)) eqn:HT;
    destruct (falsy (TELEGRAM_CHAT_ID e)) eqn:HC;
    cbn [negb andb orb map fst]; intros Hmiss; try discriminate Hmiss;
    (eexists; split; [reflexivity|]);
    intros name token [[= <- <-]|[[= <- <-]|[[= <- <-]|[]]]];
    rewrite ?HP, ?HT, ?HC; vm_compute; split; intros H; try exact H;
    try reflexivity; discriminate H.
Qed.

Lemma falsy_false (t : option string) :
  falsy t = false -> exists s, t = Some s /\ s <> EmptyString.
Proof.
  destruct t as [s|]; simpl; [|discriminate].
  intros H. exists s. split; [reflexivity|].
  now apply String.eqb_neq.
Qed.

Lemma check_tokens_set (e : env) (w : world) :
  existsb falsy [PRACTICUM_TOKEN e; TELEGRAM_TOKEN e; TELEGRAM_CHAT_ID e] = false ->
  check_tokens e w = (Ok PNone, w).
Proof.
  cbn [existsb]. intros H.
  apply orb_false_iff in H. destruct H as [HP H].
  apply orb_false_iff in H. destruct H as [HT H].
  apply orb_false_iff in H. destruct H as [HC _].
  unfold check_tokens. cbn [forallb]. rewrite HP, HT, HC. reflexivity.
Qed.

(** C7, as the code has it.  When one of the three values is unset or
    empty, [check_tokens] logs at critical level a message in which the
    names of exactly the missing values occur and raises [MissTokenError]
    with that message.  When the three are set, it raises nothing, logs
    nothing and returns [None]; the values stay where they were read, in
    the constants [PRACTICUM_TOKEN], [TELEGRAM_TOKEN], [TELEGRAM_CHAT_ID]. *)
Theorem check_tokens_outcome (e : env) (w : world) :
  (existsb falsy [PRACTICUM_TOKEN e; TELEGRAM_TOKEN e; TELEGRAM_CHAT_ID e] = true ->
   exists text,
     check_tokens e w
     = (Raise (Exn MissTokenError text None),
        mkWorld (current_status w) (log w ++ [(CRITICAL, text)]) (requests w)
                (sent w) (slept w))
     /\ forall name token,
          In (name, token)
             (combine TOKENS_NAMES
                      [PRACTICUM_TOKEN e; TELEGRAM_TOKEN e; TELEGRAM_CHAT_ID e]) ->
          (infix name text = true <-> falsy token = true))
  /\ (existsb falsy [PRACTICUM_TOKEN e; TELEGRAM_TOKEN e; TELEGRAM_CHAT_ID e] = false ->
      check_tokens e w = (Ok PNone, w)
      /\ exists practicum telegram chat,
           PRACTICUM_TOKEN e = Some practicum /\ practicum <> EmptyString
           /\ TELEGRAM_TOKEN e = Some telegram /\ telegram <> EmptyString
           /\ TELEGRAM_CHAT_ID e = Some chat /\ chat <> EmptyString).
Proof.
  split; [apply check_tokens_missing|].
  intros H. split; [now apply check_tokens_set|].
  cbn [existsb] in H.
  apply orb_false_iff in H. destruct H as [HP H].
  apply orb_false_iff in H. destruct H as [HT H].
  apply orb_false_iff in H. destruct H as [HC _].
  destruct (falsy_false _ HP) as (p & Ep & Np).
  destruct (falsy_false _ HT) as (t & Et & Nt).
  destruct (falsy_false _ HC) as (c & Ec & Nc).
  exists p, t, c. auto 7.
Qed.

Lemma check_tokens_outcome_witness :
  check_tokens (Sample.surroundings Sample.variables Sample.review_then_approval
                                    Sample.delivering) start
  = (Ok PNone, start)
  /\ exists text,
       check_tokens (Sample.surroundings
                       [("PRACTICUM_TOKEN", "y0_practicum");
                        ("TELEGRAM_CHAT_ID", EmptyString)]
                       Sample.review_then_approval Sample.delivering) start
       = (Raise (Exn MissTokenError text None),
          mkWorld EmptyString [(CRITICAL, text)] [] [] []).
Proof.
  split.
  - apply (check_tokens_outcome
             (Sample.surroundings Sample.variables Sample.review_then_approval
                                  Sample.delivering) start).
    reflexivity.
  - destruct (proj1 (check_tokens_outcome
                       (Sample.surroundings
                          [("PRACTICUM_TOKEN", "y0_practicum");
                           ("TELEGRAM_CHAT_ID", EmptyString)]
                          Sample.review_then_approval Sample.delivering) start)
                    eq_refl) as (text & E & _).
    exists text. exact E.
Defined.

(** C7, as stated, fails: with the three values set, [check_tokens]
    returns [None], in which none of the values is found. *)
Lemma check_tokens_returns_None :
  existsb falsy
    [PRACTICUM_TOKEN (Sample.surroundings Sample.variables
                        Sample.review_then_approval Sample.delivering);
     TELEGRAM_TOKEN (Sample.surroundings Sample.variables
                       Sample.review_then_approval Sample.delivering);
     TELEGRAM_CHAT_ID (Sample.surroundings Sample.variables
                         Sample.review_then_approval Sample.delivering)] = false
  /\ fst (check_tokens (Sample.surroundings Sample.variables
                          Sample.review_then_approval Sample.delivering) start)
     = Ok PNone
  /\ ~ returns_tokens
         (Sample.surroundings Sample.variables Sample.review_then_approval
                              Sample.delivering)
         (fst (check_tokens (Sample.surroundings Sample.variables
                               Sample.review_then_approval Sample.delivering)
                            start)).
Proof.
  split; [reflexivity|split; [reflexivity|]].
  intros (v & E & H). vm_compute in E. injection E as <-.
  destruct (H (Some "y0_practicum") (or_introl eq_refl)) as (s & _ & M).
  discriminate M.
Qed.

(** ** The notifier *)

Lemma send_message_delivered (e : env) (bot : Bot) (message : string) (w : world) :
  bot_send_message bot (length (sent w)) (TELEGRAM_CHAT_ID e) message = None ->
  send_message e bot message w
  = (Ok PNone,
     mkWorld (current_status w) (log w ++ [(DEBUG, "Сообщение отправлено успешно")])
             (requests w) (sent w ++ [(TELEGRAM_CHAT_ID e, message)]) (slept w)).
Proof.
  intros H. unfold send_message, try_except, bind, Bot_send_message.
  rewrite H. reflexivity.
Qed.

Lemma send_message_refused (e : env) (bot : Bot) (message : string) (w : world)
      (x : exn) :
  bot_send_message bot (length (sent w)) (TELEGRAM_CHAT_ID e) message = Some x ->
  isinstance x TelegramError = true ->
  send_message e bot message w
  = (Raise (call_instance x ("Ошибка при отправки сообщения: " ++ exn_str x)),
     mkWorld (current_status w)
             (log w ++ [(ERROR, "Ошибка при отправки сообщения: " ++ exn_str x)])
             (requests w) (sent w ++ [(TELEGRAM_CHAT_ID e, message)]) (slept w)).
Proof.
  intros H I. unfold send_message, try_except, bind, Bot_send_message.
  rewrite H, I. reflexivity.
Qed.

Lemma call_instance_class (x : exn) (argument : string) :
  exn_cls (call_instance x argument) = TypeError.
Proof. reflexivity. Qed.

(** Whatever the bot does, one call of [send_message] is one call of the
    bot, and touches neither [current_status] nor the requests nor the
    sleeps. *)
Lemma send_message_world (e : env) (bot : Bot) (message : string) (w : world) :
  current_status (snd (send_message e bot message w)) = current_status w
  /\ requests (snd (send_message e bot message w)) = requests w
  /\ sent (snd (send_message e bot message w))
     = (sent w ++ [(TELEGRAM_CHAT_ID e, message)])%list
  /\ slept (snd (send_message e bot message w)) = slept w.
Proof.
  unfold send_message, try_except, bind, Bot_send_message.
  destruct (bot_send_message bot (length (sent w)) (TELEGRAM_CHAT_ID e) message)
    as [x|]; [destruct (isinstance x TelegramError)|]; cbn; auto.
Qed.

(** What [send_message] raises is never a [TelegramError]. *)
Lemma send_message_raises (e : env) (bot : Bot) (message : string) (w : world)
      (y : exn) :
  fst (send_message e bot message w) = Raise y ->
  isinstance y TelegramError = false.
Proof.
  unfold send_message, try_except, bind, Bot_send_message.
  destruct (bot_send_message bot (length (sent w)) (TELEGRAM_CHAT_ID e) message)
    as [x|]; [destruct (isinstance x TelegramError) eqn:I|]; cbn.
  - intros [= <-]. reflexivity.
  - intros [= <-]. exact I.
  - discriminate.
Qed.

(** C3, at a refused message.  The bot raises [TelegramError]:
    [send_message] logs at error level, and what it raises is the
    [TypeError] of calling the caught exception, which holds the bot's
    error as its context and is not a [TelegramError]. *)
Theorem send_message_raises_TypeError :
  send_message (Sample.surroundings Sample.variables Sample.review_then_approval
                                    Sample.refusing)
               Sample.refusing "hello" start
  = (Raise (Exn TypeError "'TelegramError' object is not callable"
                (Some Sample.chat_not_found)),
     mkWorld EmptyString
             [(ERROR, "Ошибка при отправки сообщения: Chat not found")]
             [] [(Some "271828", "hello")] [])
  /\ isinstance (Exn TypeError "'TelegramError' object is not callable"
                     (Some Sample.chat_not_found)) TelegramError = false
  /\ send_message (Sample.surroundings Sample.variables Sample.review_then_approval
                                       Sample.delivering)
                  Sample.delivering "hello" start
     = (Ok PNone,
        mkWorld EmptyString [(DEBUG, "Сообщение отправлено успешно")]
                [] [(Some "271828", "hello")] []).
Proof. repeat split. Qed.

(** ** The API client *)

(** Case analysis on every [isinstance x _] test of the goal. *)
Ltac by_class x :=
  repeat match goal with
         | |- context [isinstance x ?c] => destruct (isinstance x c) eqn:?
         end.

(** Every call makes one request and does nothing else to the world. *)
Lemma get_api_answer_world (e : env) (timestamp : Z) (w : world) :
  snd (get_api_answer e timestamp w)
  = mkWorld (current_status w) (log w)
            (requests w ++ [mkRequest ENDPOINT (HEADERS e) timestamp])
            (sent w) (slept w).
Proof.
  unfold get_api_answer, try_except, bind, Requests_get, lift, keys.
  destruct (requests_get e (length (requests w))
                         (mkRequest ENDPOINT (HEADERS e) timestamp))
    as [x|status_code [body|x]].
  - by_class x; reflexivity.
  - destruct (status_code =? 200); cbn; [|reflexivity].
    destruct body; cbn; try reflexivity.
    destruct (dict_get "error" items); cbn; [reflexivity|].
    destruct (dict_get "code" items); reflexivity.
  - destruct (status_code =? 200); cbn; [|reflexivity].
    by_class x; reflexivity.
Qed.

Lemma get_api_answer_bad_status (e : env) (timestamp : Z) (w : world)
      (status_code : Z) (json : result pyval) :
  next_answer e timestamp w = Responds status_code json ->
  status_code <> 200 ->
  fst (get_api_answer e timestamp w)
  = Raise (Exn ResponseError
             ("Неверный ответ " ++ ENDPOINT ++ ": " ++ int_str status_code) None).
Proof.
  unfold next_answer. intros H Hne.
  unfold get_api_answer, try_except, bind, Requests_get. rewrite H.
  apply Z.eqb_neq in Hne. rewrite Hne. reflexivity.
Qed.

Lemma get_api_answer_dict (e : env) (timestamp : Z) (w : world)
      (items : list (string * pyval)) :
  next_answer e timestamp w = Responds 200 (Ok (PDict items)) ->
  fst (get_api_answer e timestamp w)
  = match dict_get "error" items with
    | Some error =>
        Raise (Exn ResponseError
                 ("Неверный ответ " ++ ENDPOINT ++ ": " ++ py_str error) None)
    | None =>
        match dict_get "code" items with
        | Some code =>
            Raise (Exn ResponseError
                     ("Неверный ответ " ++ ENDPOINT ++ ": " ++ py_str code) None)
        | None => Ok (PDict items)
        end
    end.
Proof.
  unfold next_answer. intros H.
  unfold get_api_answer, try_except, bind, Requests_get. rewrite H. cbn.
  destruct (dict_get "error" items); cbn; [reflexivity|].
  destruct (dict_get "code" items); reflexivity.
Qed.

Lemma get_api_answer_not_dict (e : env) (timestamp : Z) (w : world) (body : pyval) :
  next_answer e timestamp w = Responds 200 (Ok body) ->
  (forall items, body <> PDict items) ->
  exists x, fst (get_api_answer e timestamp w) = Raise x
            /\ exn_cls x = AttributeError.
Proof.
  unfold next_answer. intros H Hnot.
  unfold get_api_answer, try_except, bind, Requests_get. rewrite H.
  destruct body; cbn; try (eexists; split; reflexivity).
  now elim (Hnot items).
Qed.

Lemma get_api_answer_undecodable (e : env) (timestamp : Z) (w : world) (x : exn) :
  next_answer e timestamp w = Responds 200 (Raise x) ->
  isinstance x JSONDecodeError = true ->
  exists y, fst (get_api_answer e timestamp w) = Raise y
            /\ exn_cls y = TypeError /\ exn_context y = Some x.
Proof.
  unfold next_answer. intros H I.
  unfold get_api_answer, try_except, bind, Requests_get. rewrite H. cbn.
  rewrite I. eexists. repeat split.
Qed.

Lemma get_api_answer_transport (e : env) (timestamp : Z) (w : world) (x : exn) :
  next_answer e timestamp w = Fails x ->
  isinstance x RequestException = true ->
  exists y, fst (get_api_answer e timestamp w) = Raise y
            /\ exn_cls y = TypeError /\ exn_context y = Some x.
Proof.
  unfold next_answer. intros H I.
  unfold get_api_answer, try_except, bind, Requests_get. rewrite H.
  by_class x; try discriminate; eexists; repeat split.
Qed.

Lemma ResponseError_text (detail : string) :
  infix detail ("Неверный ответ " ++ ENDPOINT ++ ": " ++ detail) = true.
Proof.
  apply (infix_end ("Неверный ответ " ++ ENDPOINT ++ ": ")).
  now rewrite !append_assoc.
Qed.

Lemma get_api_answer_returns (e : env) (timestamp : Z) (w : world) (body : pyval) :
  fst (get_api_answer e timestamp w) = Ok body ->
  exists items,
    body = PDict items
    /\ next_answer e timestamp w = Responds 200 (Ok body)
    /\ dict_get "error" items = None
    /\ dict_get "code" items = None.
Proof.
  unfold next_answer, get_api_answer, try_except, bind, Requests_get, lift, keys.
  destruct (requests_get e (length (requests w))
                         (mkRequest ENDPOINT (HEADERS e) timestamp))
    as [x|status_code [answer|x]].
  - by_class x; discriminate.
  - destruct (Z.eqb_spec status_code 200) as [->|]; cbn; [|discriminate].
    destruct answer; cbn; try discriminate.
    destruct (dict_get "error" items) eqn:He; cbn; [discriminate|].
    destruct (dict_get "code" items) eqn:Hc; cbn; [discriminate|].
    intros [= <-]. exists items. auto.
  - destruct (status_code =? 200); cbn; [|discriminate].
    by_class x; discriminate.
Qed.

(** C4, as the code has it.  [get_api_answer] makes exactly one request
    and does nothing else.  It returns the decoded body, unchanged, exactly
    when the answer has status 200 and its body decodes to a dict with
    neither an [error] nor a [code] key.  A status other than 200, an
    [error] key and a [code] key each raise [ResponseError], with a message
    that shows the status or what the key holds.  A body that does not
    decode and a transport failure are not swallowed: the call raises, and
    what it raises is not a [ResponseError]. *)
Theorem get_api_answer_outcome (e : env) (timestamp : Z) (w : world) :
  snd (get_api_answer e timestamp w)
  = mkWorld (current_status w) (log w)
            (requests w ++ [mkRequest ENDPOINT (HEADERS e) timestamp])
            (sent w) (slept w)
  /\ (forall body,
         fst (get_api_answer e timestamp w) = Ok body <->
         exists items,
           body = PDict items
           /\ next_answer e timestamp w = Responds 200 (Ok body)
           /\ dict_get "error" items = None
           /\ dict_get "code" items = None)
  /\ (forall status_code json,
         next_answer e timestamp w = Responds status_code json ->
         status_code <> 200 ->
         exists text,
           fst (get_api_answer e timestamp w) = Raise (Exn ResponseError text None)
           /\ infix (int_str status_code) text = true)
  /\ (forall items error,
         next_answer e timestamp w = Responds 200 (Ok (PDict items)) ->
         dict_get "error" items = Some error ->
         exists text,
           fst (get_api_answer e timestamp w) = Raise (Exn ResponseError text None)
           /\ infix (py_str error) text = true)
  /\ (forall items code,
         next_answer e timestamp w = Responds 200 (Ok (PDict items)) ->
         dict_get "code" items = Some code ->
         exists text,
           fst (get_api_answer e timestamp w) = Raise (Exn ResponseError text None)
           /\ (dict_get "error" items = None -> infix (py_str code) text = true))
  /\ (forall x,
         next_answer e timestamp w = Responds 200 (Raise x) ->
         isinstance x JSONDecodeError = true ->
         exists y, fst (get_api_answer e timestamp w) = Raise y
                   /\ isinstance y ResponseError = false)
  /\ (forall x,
         next_answer e timestamp w = Fails x ->
         isinstance x RequestException = true ->
         exists y, fst (get_api_answer e timestamp w) = Raise y
                   /\ isinstance y ResponseError = false).
Proof.
  split; [apply get_api_answer_world|].
  split; [|split; [|split; [|split; [|split]]]].
  - intros body. split; [apply get_api_answer_returns|].
    intros (items & -> & H & He & Hc).
    rewrite (get_api_answer_dict _ _ _ _ H), He, Hc. reflexivity.
  - intros status_code json H Hne.
    rewrite (get_api_answer_bad_status _ _ _ _ _ H Hne).
    eexists. split; [reflexivity|apply ResponseError_text].
  - intros items error H He.
    rewrite (get_api_answer_dict _ _ _ _ H), He.
    eexists. split; [reflexivity|apply ResponseError_text].
  - intros items code H Hc.
    rewrite (get_api_answer_dict _ _ _ _ H), Hc.
    destruct (dict_get "error" items) as [error|].
    + eexists. split; [reflexivity|discriminate].
    + eexists. split; [reflexivity|]. intros _. apply ResponseError_text.
  - intros x H I.
    destruct (get_api_answer_undecodable _ _ _ _ H I) as (y & E & C & _).
    exists y. split; [exact E|]. unfold isinstance. now rewrite C.
  - intros x H I.
    destruct (get_api_answer_transport _ _ _ _ H I) as (y & E & C & _).
    exists y. split; [exact E|]. unfold isinstance. now rewrite C.
Qed.

Lemma get_api_answer_outcome_witness :
  fst (get_api_answer
         (Sample.surroundings Sample.variables Sample.review_then_approval
                              Sample.delivering) 1697328000 start)
  = Ok (Sample.body "reviewing" "hw05")
  /\ (exists text,
         fst (get_api_answer
                (Sample.surroundings Sample.variables
                   (Sample.always (Responds 404 (Ok (PDict []))))
                   Sample.delivering) 1697328000 start)
         = Raise (Exn ResponseError text None)
         /\ infix "404" text = true)
  /\ (exists text,
         fst (get_api_answer
                (Sample.surroundings Sample.variables
                   (Sample.always
                      (Responds 200 (Ok (PDict [("code", PStr "not_authenticated")]))))
                   Sample.delivering) 1697328000 start)
         = Raise (Exn ResponseError text None)
         /\ infix "not_authenticated" text = true).
Proof.
  split; [|split].
  - apply (get_api_answer_outcome
             (Sample.surroundings Sample.variables Sample.review_then_approval
                                  Sample.delivering) 1697328000 start).
    eexists. repeat split.
  - destruct (get_api_answer_outcome
                (Sample.surroundings Sample.variables
                   (Sample.always (Responds 404 (Ok (PDict []))))
                   Sample.delivering) 1697328000 start)
      as (_ & _ & Hstatus & _).
    apply (Hstatus 404 (Ok (PDict []))); [reflexivity|discriminate].
  - destruct (get_api_answer_outcome
                (Sample.surroundings Sample.variables
                   (Sample.always
                      (Responds 200 (Ok (PDict [("code", PStr "not_authenticated")]))))
                   Sample.delivering) 1697328000 start)
      as (_ & _ & _ & _ & Hcode & _).
    destruct (Hcode [("code", PStr "not_authenticated")] (PStr "not_authenticated")
                    eq_refl eq_refl) as (text & E & I).
    exists text. split; [exact E|]. apply I. reflexivity.
Defined.

(** C4, as stated, fails in three places: a body that does not decode
    raises an error that is not a [ResponseError]; a timeout raises an
    error that is not of the timeout's own kind; and a body that decodes to
    a list, which holds neither key, is not returned. *)
Lemma get_api_answer_not_as_stated :
  (exists y,
      fst (get_api_answer
             (Sample.surroundings Sample.variables
                (Sample.always
                   (Responds 200 (Raise (Exn JSONDecodeError "Expecting value" None))))
                Sample.delivering) 1697328000 start) = Raise y
      /\ isinstance y ResponseError = false)
  /\ (exists y,
         fst (get_api_answer
                (Sample.surroundings Sample.variables
                   (Sample.always (Fails (Exn Timeout "Read timed out" None)))
                   Sample.delivering) 1697328000 start) = Raise y
         /\ isinstance y Timeout = false
         /\ isinstance y RequestException = false)
  /\ (exists y,
         fst (get_api_answer
                (Sample.surroundings Sample.variables
                   (Sample.always (Responds 200 (Ok (PList []))))
                   Sample.delivering) 1697328000 start) = Raise y).
Proof. split; [|split]; eexists; repeat split. Qed.

(** ** One turn of the poll loop *)

(** Every exception of the model is an [Exception]. *)
Lemma isinstance_Exception (x : exn) : isinstance x Exception = true.
Proof.
  unfold isinstance, issubclass. generalize (exn_cls x) as c.
  induction c; try reflexivity.
  cbn [bases existsb class_eqb]. exact IHc.
Qed.

Lemma get_api_answer_observed (e : env) (timestamp : Z) (w : world) (first : pyval) :
  observes e (length (requests w)) timestamp first ->
  exists items rest,
    get_api_answer e timestamp w
    = (Ok (PDict items),
       mkWorld (current_status w) (log w)
               (requests w ++ [mkRequest ENDPOINT (HEADERS e) timestamp])
               (sent w) (slept w))
    /\ check_response (PDict items) = Ok (first :: rest).
Proof.
  intros (items & rest & H & He & Hc & Hh). exists items, rest. split.
  - rewrite (surjective_pairing (get_api_answer e timestamp w)).
    rewrite get_api_answer_world, (get_api_answer_dict _ _ _ items H), He, Hc.
    reflexivity.
  - unfold check_response. rewrite Hh. reflexivity.
Qed.

(** The first homework announces what [current_status] already holds:
    nothing is sent. *)
Lemma poll_cycle_same (e : env) (bot : Bot) (timestamp : Z) (w : world)
      (first : pyval) (verdict : string) :
  observes e (length (requests w)) timestamp first ->
  parse_status first = Ok verdict ->
  current_status w = verdict ->
  poll_cycle e bot timestamp w
  = (Ok tt,
     mkWorld verdict (log w ++ [(DEBUG, "В ответе отсутствует новый статус")])
             (requests w ++ [mkRequest ENDPOINT (HEADERS e) timestamp])
             (sent w) (slept w ++ [RETRY_PERIOD])).
Proof.
  intros Hobs Hparse Hcur.
  destruct (get_api_answer_observed _ _ _ _ Hobs) as (items & rest & G & C).
  unfold poll_cycle, try_except, bind. rewrite G. unfold lift. rewrite C, Hparse.
  cbn. rewrite Hcur, String.eqb_refl. reflexivity.
Qed.

(** The first homework announces something new and the bot delivers it:
    one message, the announcement. *)
Lemma poll_cycle_new_delivered (e : env) (bot : Bot) (timestamp : Z) (w : world)
      (first : pyval) (verdict : string) :
  observes e (length (requests w)) timestamp first ->
  parse_status first = Ok verdict ->
  current_status w <> verdict ->
  bot_send_message bot (length (sent w)) (TELEGRAM_CHAT_ID e) verdict = None ->
  poll_cycle e bot timestamp w
  = (Ok tt,
     mkWorld verdict (log w ++ [(DEBUG, "Сообщение отправлено успешно")])
             (requests w ++ [mkRequest ENDPOINT (HEADERS e) timestamp])
             (sent w ++ [(TELEGRAM_CHAT_ID e, verdict)]) (slept w ++ [RETRY_PERIOD])).
Proof.
  intros Hobs Hparse Hcur Hbot.
  destruct (get_api_answer_observed _ _ _ _ Hobs) as (items & rest & G & C).
  unfold poll_cycle, try_except, bind. rewrite G. unfold lift. rewrite C, Hparse.
  cbn. apply String.eqb_neq in Hcur. rewrite Hcur. cbn.
  rewrite send_message_delivered by exact Hbot. reflexivity.
Qed.

(** The first homework announces something new: whatever the bot does,
    [current_status] ends up holding the announcement, and the first
    message of the turn is the announcement. *)
Lemma poll_cycle_new (e : env) (bot : Bot) (timestamp : Z) (w : world)
      (first : pyval) (verdict : string) :
  observes e (length (requests w)) timestamp first ->
  parse_status first = Ok verdict ->
  current_status w <> verdict ->
  current_status (snd (poll_cycle e bot timestamp w)) = verdict
  /\ exists more,
       sent (snd (poll_cycle e bot timestamp w))
       = (sent w ++ (TELEGRAM_CHAT_ID e, verdict) :: more)%list.
Proof.
  intros Hobs Hparse Hcur.
  destruct (get_api_answer_observed _ _ _ _ Hobs) as (items & rest & G & C).
  unfold poll_cycle, try_except, bind. rewrite G. unfold lift. rewrite C, Hparse.
  cbn. apply String.eqb_neq in Hcur. rewrite Hcur. cbn.
  match goal with
  | |- context [send_message e bot verdict ?w1] => set (w1' := w1)
  end.
  destruct (send_message_world e bot verdict w1') as (Hs & _ & Ht & _).
  pose proof (send_message_raises e bot verdict w1') as Hr.
  destruct (send_message e bot verdict w1') as [[v|y] w2]; cbn in *.
  - split; [exact Hs|]. exists []. exact Ht.
  - rewrite (Hr y eq_refl), isinstance_Exception. cbn.
    match goal with
    | |- context [send_message e bot ?m ?w3] => set (w3' := w3); set (m' := m)
    end.
    destruct (send_message_world e bot m' w3') as (Hs' & _ & Ht' & _).
    destruct (send_message e bot m' w3') as [[v|z] w4]; cbn in *.
    + split; [congruence|]. eexists. rewrite Ht', Ht, <- app_assoc. reflexivity.
    + split; [congruence|]. eexists. rewrite Ht', Ht, <- app_assoc. reflexivity.
Qed.

(** ** The poll loop *)

Lemma while_True_S (n : nat) (body : M unit) (w : world) :
  while_True (S n) body w
  = match body w with
    | (Ok _, w') => while_True n body w'
    | (Raise x, w') => (Raise x, w')
    end.
Proof. reflexivity. Qed.

(** With the credentials there and the bot built, [main] is the loop. *)
Lemma main_runs (e : env) (bot : Bot) (cycles : nat) (w : world) :
  existsb falsy [PRACTICUM_TOKEN e; TELEGRAM_TOKEN e; TELEGRAM_CHAT_ID e] = false ->
  telegram_Bot e (TELEGRAM_TOKEN e) = Ok bot ->
  main e cycles w
  = while_True cycles (poll_cycle e bot (initial_timestamp e))
               (mkWorld EmptyString (log w) (requests w) (sent w) (slept w)).
Proof.
  intros Htokens Hbot.
  unfold main, bind at 1. rewrite (check_tokens_set e w Htokens).
  unfold bind at 1. cbn [set_current_status].
  unfold bind at 1, try_except, lift. rewrite Hbot. reflexivity.
Qed.

Lemma append_inj (p a b : string) : p ++ a = p ++ b -> a = b.
Proof. induction p; simpl; intros H; [exact H|injection H; auto]. Qed.

Lemma announcement_inj (name v1 v2 : string) :
  announcement name v1 = announcement name v2 -> v1 = v2.
Proof.
  unfold announcement. intros H.
  repeat (apply append_inj in H). exact H.
Qed.

Lemma announcement_not_empty (name verdict : string) :
  EmptyString <> announcement name verdict.
Proof. discriminate. Qed.

Lemma parse_status_known (record : pyval) (status name verdict : string) :
  has_status record status name ->
  In (status, verdict) HOMEWORK_VERDICTS ->
  parse_status record = Ok (announcement name verdict).
Proof.
  intros (items & -> & Hs & Hn) Hin. apply verdict_of_known in Hin.
  rewrite (parse_status_fields _ _ _ Hs Hn). unfold find_verdict.
  cbn [hashable py_str]. rewrite Hin. reflexivity.
Qed.

Lemma sent_grows (l more : list (option string * string))
      (x : option string * string) :
  (l ++ x :: more)%list <> l.
Proof.
  intros H. apply (f_equal (@length _)) in H.
  rewrite length_app in H. simpl in H. lia.
Qed.

(** In a turn that gets as far as a formatted verdict, the bot is called
    exactly when the verdict differs from [current_status]. *)
Lemma poll_cycle_sends_iff (e : env) (bot : Bot) (timestamp : Z) (w : world)
      (first : pyval) (verdict : string) :
  observes e (length (requests w)) timestamp first ->
  parse_status first = Ok verdict ->
  sent (snd (poll_cycle e bot timestamp w)) <> sent w <-> verdict <> current_status w.
Proof.
  intros Hobs Hparse.
  destruct (string_dec (current_status w) verdict) as [Heq|Hne].
  - rewrite (poll_cycle_same _ bot _ _ _ _ Hobs Hparse Heq). cbn.
    split; intros H; elim H; auto.
  - destruct (poll_cycle_new _ bot _ _ _ _ Hobs Hparse Hne) as (_ & more & ->).
    split; intros _; [auto|apply sent_grows].
Qed.

(** C1.  [main] starts with [current_status] empty.  With a bot that
    delivers, and three polls that find the homework under review, under
    review again, and approved: the first turn calls the bot once, with the
    announcement of the review; the second turn does not call it; the third
    calls it once, with the announcement of the approval.  In any turn that
    formats a verdict, and with any bot, the bot is called if and only if
    the verdict differs from [current_status] at the start of the turn. *)
Theorem main_announces_changes (e : env) (bot : Bot) (name : string) :
  existsb falsy [PRACTICUM_TOKEN e; TELEGRAM_TOKEN e; TELEGRAM_CHAT_ID e] = false ->
  telegram_Bot e (TELEGRAM_TOKEN e) = Ok bot ->
  (forall n chat text, bot_send_message bot n chat text = None) ->
  polled e 0 (initial_timestamp e) "reviewing" name ->
  polled e 1 (initial_timestamp e) "reviewing" name ->
  polled e 2 (initial_timestamp e) "approved" name ->
  main e 0 start = (Ok tt, start)
  /\ sent (snd (main e 1 start))
     = [(TELEGRAM_CHAT_ID e,
         announcement name "Работа взята на проверку ревьюером.")]
  /\ sent (snd (main e 2 start))
     = [(TELEGRAM_CHAT_ID e,
         announcement name "Работа взята на проверку ревьюером.")]
  /\ sent (snd (main e 3 start))
     = [(TELEGRAM_CHAT_ID e,
         announcement name "Работа взята на проверку ревьюером.");
        (TELEGRAM_CHAT_ID e,
         announcement name "Работа проверена: ревьюеру всё понравилось. Ура!")]
  /\ fst (main e 3 start) = Ok tt
  /\ (forall any_bot timestamp w first verdict,
         observes e (length (requests w)) timestamp first ->
         parse_status first = Ok verdict ->
         (sent (snd (poll_cycle e any_bot timestamp w)) <> sent w
          <-> verdict <> current_status w)).
Proof.
  intros Htokens Hbot Hdelivers (r1 & O1 & S1) (r2 & O2 & S2) (r3 & O3 & S3).
  pose proof (parse_status_known _ _ _ "Работа взята на проверку ревьюером."
                S1 (or_intror (or_introl eq_refl))) as P1.
  pose proof (parse_status_known _ _ _ "Работа взята на проверку ревьюером."
                S2 (or_intror (or_introl eq_refl))) as P2.
  pose proof (parse_status_known _ _ _
                "Работа проверена: ревьюеру всё понравилось. Ура!"
                S3 (or_introl eq_refl)) as P3.
  assert (E1 := poll_cycle_new_delivered e bot _ start _ _ O1 P1
                  (announcement_not_empty _ _) (Hdelivers _ _ _)).
  match type of E1 with _ = (_, ?w) => set (w1 := w) in E1 end.
  assert (E2 := poll_cycle_same e bot _ w1 _ _ O2 P2 eq_refl).
  match type of E2 with _ = (_, ?w) => set (w2 := w) in E2 end.
  assert (Hne : current_status w2
                <> announcement name "Работа проверена: ревьюеру всё понравилось. Ура!").
  { intros H. apply announcement_inj in H. discriminate H. }
  assert (E3 := poll_cycle_new_delivered e bot _ w2 _ _ O3 P3 Hne (Hdelivers _ _ _)).
  rewrite !(main_runs e bot _ start Htokens Hbot).
  change (mkWorld EmptyString (log start) (requests start) (sent start) (slept start))
    with start.
  repeat (rewrite while_True_S;
          first [rewrite E1 | rewrite E2 | rewrite E3]; cbv iota beta).
  do 5 (split; [reflexivity|]).
  intros any_bot timestamp w first verdict Hobs Hparse.
  now apply poll_cycle_sends_iff with (first := first).
Qed.

(** ** The requests of a computation *)

Section Requests.

Context {A B : Type}.

Lemma requesting_ret (a : A) : requesting (ret a) [].
Proof. intros w. cbn. now rewrite app_nil_r. Qed.

Lemma requesting_raise (x : exn) : requesting (@raise A x) [].
Proof. intros w. cbn. now rewrite app_nil_r. Qed.

Lemma requesting_lift (r : result A) : requesting (lift r) [].
Proof. intros w. cbn. now rewrite app_nil_r. Qed.

Lemma requesting_bind (c : M A) (k : A -> M B) (made : list http_request) :
  requesting c made -> (forall a, requesting (k a) []) ->
  requesting (bind c k) made.
Proof.
  intros Hc Hk w. unfold bind. specialize (Hc w).
  destruct (c w) as [[a|x] w1]; cbn in *; [|exact Hc].
  rewrite (Hk a w1), app_nil_r. exact Hc.
Qed.

Lemma requesting_try (body : M A) (handlers : exn -> option (M A))
      (made : list http_request) :
  requesting body made ->
  (forall x handler, handlers x = Some handler -> requesting handler []) ->
  requesting (try_except body handlers) made.
Proof.
  intros Hb Hh w. unfold try_except. specialize (Hb w).
  destruct (body w) as [[a|x] w1]; cbn in *; [exact Hb|].
  destruct (handlers x) as [handler|] eqn:E; [|exact Hb].
  rewrite (Hh x handler E w1), app_nil_r. exact Hb.
Qed.

End Requests.

Lemma requesting_logging (l : level) (text : string) : requesting (logging l text) [].
Proof. intros w. cbn. now rewrite app_nil_r. Qed.

Lemma requesting_sleep (seconds : Z) : requesting (time_sleep seconds) [].
Proof. intros w. cbn. now rewrite app_nil_r. Qed.

Lemma requesting_send (e : env) (bot : Bot) (message : string) :
  requesting (send_message e bot message) [].
Proof.
  intros w. destruct (send_message_world e bot message w) as (_ & H & _).
  now rewrite H, app_nil_r.
Qed.

Lemma requesting_get_api_answer (e : env) (timestamp : Z) :
  requesting (get_api_answer e timestamp) [mkRequest ENDPOINT (HEADERS e) timestamp].
Proof. intros w. now rewrite get_api_answer_world. Qed.

Create HintDb requests.

#[local] Hint Resolve requesting_ret requesting_raise requesting_lift
  requesting_logging requesting_sleep requesting_send : requests.

(** Every turn of the loop makes one request, with the timestamp it was
    given. *)
Lemma requesting_poll_cycle (e : env) (bot : Bot) (timestamp : Z) :
  requesting (poll_cycle e bot timestamp)
             [mkRequest ENDPOINT (HEADERS e) timestamp].
Proof.
  unfold poll_cycle.
  apply requesting_bind; [|auto with requests].
  apply requesting_try.
  - apply requesting_bind; [apply requesting_get_api_answer|].
    intros response. apply requesting_bind; [auto with requests|].
    intros [|first rest]; [auto with requests|].
    apply requesting_bind; [auto with requests|]. intros verdict.
    apply requesting_bind; [intros w; cbn; now rewrite app_nil_r|]. intros current.
    destruct (negb (current =? verdict)%string); [|auto with requests].
    apply requesting_bind; [intros w; cbn; now rewrite app_nil_r|]. intros _.
    apply requesting_bind; [intros w; cbn; now rewrite app_nil_r|]. intros current'.
    apply requesting_bind; auto with requests.
  - intros x handler. by_class x; intros [= <-]; [auto with requests|].
    apply requesting_bind; [auto with requests|]. intros _.
    apply requesting_bind; auto with requests.
Qed.

Lemma requesting_while_True (cycles : nat) (body : M unit) (request : http_request)
      (w : world) :
  requesting body [request] ->
  exists made,
    requests (snd (while_True cycles body w)) = (requests w ++ made)%list
    /\ Forall (eq request) made
    /\ (fst (while_True cycles body w) = Ok tt -> length made = cycles).
Proof.
  intros Hbody. revert w. induction cycles as [|n IH]; intros w.
  - exists []. cbn. rewrite app_nil_r. auto.
  - rewrite while_True_S. specialize (Hbody w).
    destruct (body w) as [[[]|x] w1]; cbn in Hbody.
    + destruct (IH w1) as (made & Hreq & Hall & Hlen).
      exists (request :: made). rewrite Hreq, Hbody, <- app_assoc.
      split; [reflexivity|]. split; [now constructor|].
      intros H. cbn. now rewrite Hlen.
    + exists [request]. cbn. split; [exact Hbody|]. split; [auto|discriminate].
Qed.

(** [main] stops before the loop when a credential is missing or the bot
    cannot be built. *)
Lemma main_stops_early (e : env) (cycles : nat) (w : world) :
  existsb falsy [PRACTICUM_TOKEN e; TELEGRAM_TOKEN e; TELEGRAM_CHAT_ID e] = true
  \/ (exists x, telegram_Bot e (TELEGRAM_TOKEN e) = Raise x) ->
  exists x w', main e cycles w = (Raise x, w') /\ requests w' = requests w.
Proof.
  destruct (existsb falsy [PRACTICUM_TOKEN e; TELEGRAM_TOKEN e; TELEGRAM_CHAT_ID e])
    eqn:Htokens.
  - intros _. destruct (check_tokens_missing e w Htokens) as (text & E & _).
    unfold main, bind at 1. rewrite E. eexists. eexists. split; reflexivity.
  - intros [H|(x & Hbot)]; [discriminate H|].
    unfold main, bind at 1. rewrite (check_tokens_set e w Htokens).
    unfold bind at 1. cbn [set_current_status].
    unfold bind at 1, try_except, lift. rewrite Hbot, isinstance_Exception.
    eexists. eexists. split; reflexivity.
Qed.

(** The requests of [main], however it starts and however far it gets. *)
Lemma main_requests (e : env) (cycles : nat) (w : world) :
  exists made,
    requests (snd (main e cycles w)) = (requests w ++ made)%list
    /\ Forall (eq (mkRequest ENDPOINT (HEADERS e) (initial_timestamp e))) made
    /\ (fst (main e cycles w) = Ok tt -> length made = cycles).
Proof.
  destruct (existsb falsy [PRACTICUM_TOKEN e; TELEGRAM_TOKEN e; TELEGRAM_CHAT_ID e])
    eqn:Htokens;
    [|destruct (telegram_Bot e (TELEGRAM_TOKEN e)) as [bot|x] eqn:Hbot].
  - destruct (main_stops_early e cycles w) as (x & w' & -> & Hreq);
      [left; exact Htokens|].
    exists []. cbn. rewrite app_nil_r.
    split; [exact Hreq|]. split; [constructor|discriminate].
  - rewrite (main_runs e bot cycles w Htokens Hbot).
    apply (requesting_while_True cycles _ _
             (mkWorld EmptyString (log w) (requests w) (sent w) (slept w))).
    apply requesting_poll_cycle.
  - destruct (main_stops_early e cycles w) as (y & w' & -> & Hreq);
      [right; now exists x|].
    exists []. cbn. rewrite app_nil_r.
    split; [exact Hreq|]. split; [constructor|discriminate].
Qed.

(** C8, as the code has it.  The timestamp is computed once, before the
    loop: it is the second at which a local day begins, the day 30 days
    before the day of the start, so that it lies 30 days or more, and less
    than 31 days, before the start.  Every request of every turn carries
    this one timestamp, and a loop that has made [cycles] turns has made
    [cycles] requests. *)
Theorem cursor_is_fixed (e : env) (cycles : nat) :
  (initial_timestamp e + utc_offset e) mod 86400 = 0
  /\ time_time e - 31 * 86400 < initial_timestamp e <= time_time e - 30 * 86400
  /\ Forall (fun request => from_date request = initial_timestamp e)
            (requests (snd (main e cycles start)))
  /\ (fst (main e cycles start) = Ok tt ->
      length (requests (snd (main e cycles start))) = cycles).
Proof.
  split; [|split].
  - unfold initial_timestamp, time_mktime.
    replace ((date_today e - 30) * 86400 - utc_offset e + utc_offset e)
      with ((date_today e - 30) * 86400) by lia.
    apply Z.mod_mul. lia.
  - unfold initial_timestamp, time_mktime, date_today.
    pose proof (Z.div_mod (time_time e + utc_offset e) 86400 ltac:(lia)) as D.
    pose proof (Z.mod_pos_bound (time_time e + utc_offset e) 86400 ltac:(lia)) as B.
    lia.
  - destruct (main_requests e cycles start) as (made & Hreq & Hall & Hlen).
    rewrite Hreq. cbn [requests start app]. split.
    + eapply Forall_impl; [|exact Hall]. intros request <-. reflexivity.
    + exact Hlen.
Qed.

Lemma cursor_is_fixed_witness :
  length (requests (snd (main (Sample.surroundings Sample.variables
                                 Sample.review_then_approval Sample.delivering)
                              3 start))) = 3%nat.
Proof.
  apply (cursor_is_fixed (Sample.surroundings Sample.variables
                            Sample.review_then_approval Sample.delivering) 3).
  reflexivity.
Defined.

(** C8, as stated, fails: for a process started at 22:13:20 the timestamp
    is that of midnight, 30 days and 22:13:20 hours before the start, and
    not that of the second 30 days before the start. *)
Lemma cursor_is_a_midnight :
  initial_timestamp (Sample.surroundings Sample.variables
                       Sample.review_then_approval Sample.delivering)
  = 1697328000
  /\ time_time (Sample.surroundings Sample.variables
                  Sample.review_then_approval Sample.delivering) - 30 * 86400
     = 1697408000
  /\ initial_timestamp (Sample.surroundings Sample.variables
                          Sample.review_then_approval Sample.delivering)
     <> time_time (Sample.surroundings Sample.variables
                     Sample.review_then_approval Sample.delivering) - 30 * 86400.
Proof. repeat split. discriminate. Qed.

(** ** A status change whose delivery fails *)

(** Turns that find the verdict [current_status] already holds: the loop
    goes on, and nothing is sent. *)
Lemma quiet_turns (e : env) (bot : Bot) (timestamp : Z) (verdict : string)
      (turns : nat) :
  forall w,
    current_status w = verdict ->
    (forall k, (k < turns)%nat ->
               exists later,
                 observes e (length (requests w) + k) timestamp later
                 /\ parse_status later = Ok verdict) ->
    fst (while_True turns (poll_cycle e bot timestamp) w) = Ok tt
    /\ sent (snd (while_True turns (poll_cycle e bot timestamp) w)) = sent w.
Proof.
  induction turns as [|n IH]; intros w Hcur Hlater; [split; reflexivity|].
  destruct (Hlater 0%nat ltac:(lia)) as (later & Hobs & Hparse).
  rewrite Nat.add_0_r in Hobs.
  rewrite while_True_S, (poll_cycle_same e bot _ _ _ _ Hobs Hparse Hcur).
  match goal with
  | |- context [while_True n _ ?w'] => destruct (IH w') as [Hgo Hsent]
  end.
  - reflexivity.
  - intros k Hk. cbn [requests]. rewrite length_app. cbn [length].
    replace (length (requests w) + 1 + k)%nat with (length (requests w) + S k)%nat
      by lia.
    apply Hlater. lia.
  - split; [exact Hgo|]. rewrite Hsent. reflexivity.
Qed.

(** C9.  In a turn whose verdict differs from [current_status], the
    assignment comes before the call of the bot: whatever the bot does
    with the announcement, refusing it included, [current_status] holds the
    new verdict after the turn, and the first message of the turn was the
    announcement.  Later turns that find the same verdict go on without
    sending anything: the announcement is not tried again. *)
Theorem status_set_before_sending (e : env) (bot : Bot) (timestamp : Z)
        (w : world) (first : pyval) (verdict : string) (turns : nat) :
  observes e (length (requests w)) timestamp first ->
  parse_status first = Ok verdict ->
  verdict <> current_status w ->
  (forall k, (k < turns)%nat ->
             exists later,
               observes e (S (length (requests w)) + k) timestamp later
               /\ parse_status later = Ok verdict) ->
  current_status (snd (poll_cycle e bot timestamp w)) = verdict
  /\ (exists more,
         sent (snd (poll_cycle e bot timestamp w))
         = (sent w ++ (TELEGRAM_CHAT_ID e, verdict) :: more)%list)
  /\ fst (while_True turns (poll_cycle e bot timestamp)
                     (snd (poll_cycle e bot timestamp w))) = Ok tt
  /\ sent (snd (while_True turns (poll_cycle e bot timestamp)
                           (snd (poll_cycle e bot timestamp w))))
     = sent (snd (poll_cycle e bot timestamp w)).
Proof.
  intros Hobs Hparse Hne Hlater.
  destruct (poll_cycle_new e bot _ _ _ _ Hobs Hparse (not_eq_sym Hne))
    as (Hcur & Hsent).
  split; [exact Hcur|]. split; [exact Hsent|].
  apply (quiet_turns e bot timestamp verdict turns); [exact Hcur|].
  intros k Hk. rewrite (requesting_poll_cycle e bot timestamp w), length_app.
  cbn [length]. replace (length (requests w) + 1 + k)%nat
    with (S (length (requests w)) + k)%nat by lia.
  now apply Hlater.
Qed.

Lemma status_set_before_sending_witness :
  bot_send_message Sample.refusing_once 0 (Some "271828")
    (announcement "hw05" "Работа взята на проверку ревьюером.")
  = Some Sample.chat_not_found
  /\ current_status
       (snd (poll_cycle
               (Sample.surroundings Sample.variables
                  (Sample.always (Responds 200 (Ok (Sample.body "reviewing" "hw05"))))
                  Sample.refusing_once)
               Sample.refusing_once 1697328000 start))
     = announcement "hw05" "Работа взята на проверку ревьюером."
  /\ sent (snd (while_True 2
                  (poll_cycle
                     (Sample.surroundings Sample.variables
                        (Sample.always
                           (Responds 200 (Ok (Sample.body "reviewing" "hw05"))))
                        Sample.refusing_once)
                     Sample.refusing_once 1697328000)
                  (snd (poll_cycle
                          (Sample.surroundings Sample.variables
                             (Sample.always
                                (Responds 200 (Ok (Sample.body "reviewing" "hw05"))))
                             Sample.refusing_once)
                          Sample.refusing_once 1697328000 start))))
     = sent (snd (poll_cycle
                    (Sample.surroundings Sample.variables
                       (Sample.always
                          (Responds 200 (Ok (Sample.body "reviewing" "hw05"))))
                       Sample.refusing_once)
                    Sample.refusing_once 1697328000 start)).
Proof.
  split; [reflexivity|].
  destruct (status_set_before_sending
              (Sample.surroundings Sample.variables
                 (Sample.always (Responds 200 (Ok (Sample.body "reviewing" "hw05"))))
                 Sample.refusing_once)
              Sample.refusing_once 1697328000 start
              (Sample.homework "reviewing" "hw05")
              (announcement "hw05" "Работа взята на проверку ревьюером.") 2)
    as (Hcur & _ & _ & Hquiet).
  - eexists. eexists. repeat split.
  - reflexivity.
  - discriminate.
  - intros k _. exists (Sample.homework "reviewing" "hw05").
    split; [|reflexivity]. eexists. eexists. repeat split.
  - split; [exact Hcur|exact Hquiet].
Defined.

Lemma main_announces_changes_witness :
  sent (snd (main (Sample.surroundings Sample.variables Sample.review_then_approval
                                       Sample.delivering) 3 start))
  = [(Some "271828", announcement "hw05" "Работа взята на проверку ревьюером.");
     (Some "271828",
      announcement "hw05" "Работа проверена: ревьюеру всё понравилось. Ура!")].
Proof.
  destruct (main_announces_changes
              (Sample.surroundings Sample.variables Sample.review_then_approval
                                   Sample.delivering)
              Sample.delivering "hw05") as (_ & _ & _ & H & _).
  - reflexivity.
  - reflexivity.
  - intros n chat text. reflexivity.
  - exists (Sample.homework "reviewing" "hw05").
    split; eexists; [eexists|]; repeat split.
  - exists (Sample.homework "reviewing" "hw05").
    split; eexists; [eexists|]; repeat split.
  - exists (Sample.homework "approved" "hw05").
    split; eexists; [eexists|]; repeat split.
  - exact H.
Defined.

(** ** A refused message, in the loop *)

(** C2, at a refused message.  The bot refuses every message: the turn
    that announces the review calls the bot a second time, with a failure
    notice, and the exception of that second call leaves [main] before any
    sleep.  The bot refuses the first message only: the loop goes on, but
    the turn has called the bot twice. *)
Theorem refused_message_is_reported :
  fst (main (Sample.surroundings Sample.variables Sample.review_then_approval
                                 Sample.refusing) 1 start)
  = Raise (Exn TypeError "'TelegramError' object is not callable"
               (Some Sample.chat_not_found))
  /\ sent (snd (main (Sample.surroundings Sample.variables
                        Sample.review_then_approval Sample.refusing) 1 start))
     = [(Some "271828", announcement "hw05" "Работа взята на проверку ревьюером.");
        (Some "271828",
         "Сбой в работе программы: 'TelegramError' object is not callable")]
  /\ slept (snd (main (Sample.surroundings Sample.variables
                         Sample.review_then_approval Sample.refusing) 1 start))
     = []
  /\ fst (main (Sample.surroundings Sample.variables Sample.review_then_approval
                                    Sample.refusing_once) 1 start)
     = Ok tt
  /\ sent (snd (main (Sample.surroundings Sample.variables
                        Sample.review_then_approval Sample.refusing_once) 1 start))
     = [(Some "271828", announcement "hw05" "Работа взята на проверку ревьюером.");
        (Some "271828",
         "Сбой в работе программы: 'TelegramError' object is not callable")]
  /\ slept (snd (main (Sample.surroundings Sample.variables
                         Sample.review_then_approval Sample.refusing_once) 1 start))
     = [600].
Proof. repeat split. Qed.

(** ** Sample runs *)

Example repr_plain : str_repr "TELEGRAM_TOKEN" = "'TELEGRAM_TOKEN'".
Proof. reflexivity. Qed.

Example repr_mixed : py_str (PList [PStr "a"; PInt (-12); PNone]) = "['a', -12, None]".
Proof. reflexivity. Qed.

Example repr_with_quote :
  exn_str (Exn KeyError ("keys: " ++ "<class 'KeyError'>") None)
  = str1 dquote ++ "keys: <class 'KeyError'>" ++ str1 dquote.
Proof. reflexivity. Qed.

Example three_polls :
  log (snd (main (Sample.surroundings Sample.variables Sample.review_then_approval
                                      Sample.delivering) 3 start))
  = [(DEBUG, "Сообщение отправлено успешно");
     (DEBUG, "В ответе отсутствует новый статус");
     (DEBUG, "Сообщение отправлено успешно")].
Proof. reflexivity. Qed.

Example missing_tokens :
  fst (check_tokens (Sample.surroundings [("PRACTICUM_TOKEN", "y0_practicum")]
                       Sample.review_then_approval Sample.delivering) start)
  = Raise (Exn MissTokenError
             "Отсутствуют токены: ['TELEGRAM_TOKEN', 'TELEGRAM_CHAT_ID']" None).
Proof. reflexivity. Qed.

(** * Further properties *)

(** ** What [parse_status] accepts *)

Lemma parse_status_ok (homework : pyval) (sentence : string) :
  parse_status homework = Ok sentence ->
  exists items status name verdict,
    homework = PDict items
    /\ dict_get "status" items = Some (PStr status)
    /\ dict_get "homework_name" items = Some name
    /\ In (status, verdict) HOMEWORK_VERDICTS
    /\ sentence = announcement (py_str name) verdict.
Proof.
  destruct homework; try (cbn; discriminate).
  destruct (dict_get "status" items) as [status|] eqn:Hs;
    [|unfold parse_status, getitem; rewrite Hs; cbn; discriminate].
  destruct (dict_get "homework_name" items) as [name|] eqn:Hn;
    [|unfold parse_status, getitem; rewrite Hs, Hn; cbn; discriminate].
  rewrite (parse_status_fields _ _ _ Hs Hn). unfold find_verdict.
  destruct status; cbn [hashable]; try discriminate.
  destruct (verdict_of HOMEWORK_VERDICTS s) as [verdict|] eqn:Hv;
    [|discriminate].
  intros [= <-]. exists items, s, name, verdict.
  apply verdict_of_known in Hv. auto 6.
Qed.

(** X1.  [parse_status] returns a sentence exactly for a dict that has
    both fields and whose [status] is a string of the verdict table; the
    sentence is then the announcement of the table's verdict for the name,
    written as [str] writes it. *)
Theorem parse_status_returns (homework : pyval) (sentence : string) :
  parse_status homework = Ok sentence <->
  exists items status name verdict,
    homework = PDict items
    /\ dict_get "status" items = Some (PStr status)
    /\ dict_get "homework_name" items = Some name
    /\ In (status, verdict) HOMEWORK_VERDICTS
    /\ sentence = announcement (py_str name) verdict.
Proof.
  split; [apply parse_status_ok|].
  intros (items & status & name & verdict & -> & Hs & Hn & Hin & ->).
  apply verdict_of_known in Hin.
  rewrite (parse_status_fields _ _ _ Hs Hn). unfold find_verdict.
  cbn [hashable]. rewrite Hin. reflexivity.
Qed.

Lemma parse_status_returns_witness :
  parse_status (PDict [("homework_name", PInt 5); ("status", PStr "rejected")])
  = Ok (announcement "5" "Работа проверена: у ревьюера есть замечания.").
Proof.
  apply parse_status_returns.
  exists [("homework_name", PInt 5); ("status", PStr "rejected")], "rejected",
    (PInt 5), "Работа проверена: у ревьюера есть замечания.".
  repeat split. right. right. left. reflexivity.
Defined.

(** X2.  What is not a well-formed record is refused by kind: a homework
    that is not a dict raises [TypeError], and so does a [status] that is a
    list or a dict, which cannot be hashed; a [status] that can be hashed
    and is not a string (a number, [None]) is outside the table and raises
    [VerdictErrors] with the status in the message. *)
Theorem parse_status_refuses :
  (forall homework,
      (forall items, homework <> PDict items) ->
      exists x, parse_status homework = Raise x /\ exn_cls x = TypeError)
  /\ (forall items status name,
         dict_get "status" items = Some status ->
         dict_get "homework_name" items = Some name ->
         hashable status = false ->
         exists x, parse_status (PDict items) = Raise x /\ exn_cls x = TypeError)
  /\ (forall items status name,
         dict_get "status" items = Some status ->
         dict_get "homework_name" items = Some name ->
         hashable status = true ->
         (forall s, status <> PStr s) ->
         exists text,
           parse_status (PDict items) = Raise (Exn VerdictErrors text None)
           /\ infix (py_str status) text = true).
Proof.
  split; [|split].
  - intros homework H.
    destruct homework; try (eexists; split; reflexivity).
    now elim (H items).
  - intros items status name Hs Hn Hh.
    rewrite (parse_status_fields _ _ _ Hs Hn). unfold find_verdict. rewrite Hh.
    eexists. split; reflexivity.
  - intros items status name Hs Hn Hh Hstr.
    rewrite (parse_status_fields _ _ _ Hs Hn). unfold find_verdict. rewrite Hh.
    assert (E : match status with
                | PStr s => Ok (verdict_of HOMEWORK_VERDICTS s)
                | _ => Ok None
                end = Ok None).
    { destruct status; try reflexivity. now elim (Hstr s). }
    rewrite E. eexists. split; [reflexivity|].
    apply (infix_end ("Неожиданный статус домашней работы,"
                        ++ "обнаруженный в ответе API ")).
    reflexivity.
Qed.

Lemma parse_status_refuses_witness :
  (exists x, parse_status (PStr "approved") = Raise x /\ exn_cls x = TypeError)
  /\ (exists x,
         parse_status (PDict [("status", PList [PStr "approved"]);
                              ("homework_name", PStr "hw05")]) = Raise x
         /\ exn_cls x = TypeError)
  /\ (exists text,
         parse_status (PDict [("status", PNone); ("homework_name", PStr "hw05")])
         = Raise (Exn VerdictErrors text None)
         /\ infix "None" text = true).
Proof.
  destruct parse_status_refuses as (Hshape & Hhash & Hother).
  split; [|split].
  - apply Hshape. discriminate.
  - apply (Hhash _ (PList [PStr "approved"]) (PStr "hw05")); reflexivity.
  - apply (Hother _ PNone (PStr "hw05")); try reflexivity. discriminate.
Defined.

(** ** Announcements tell homeworks and verdicts apart *)

Lemma list_ascii_of_string_app (a b : string) :
  list_ascii_of_string (a ++ b)
  = (list_ascii_of_string a ++ list_ascii_of_string b)%list.
Proof. induction a; simpl; congruence. Qed.

Lemma list_ascii_of_string_inj (a b : string) :
  list_ascii_of_string a = list_ascii_of_string b -> a = b.
Proof.
  intros H. rewrite <- (string_of_list_ascii_of_string a),
              <- (string_of_list_ascii_of_string b).
  now rewrite H.
Qed.

(** The verdicts of the table end differently, so that an announcement
    can be read back: it has one name and one verdict. *)
Lemma announcement_read_back (n1 n2 v1 v2 : string) :
  In v1 (map snd HOMEWORK_VERDICTS) ->
  In v2 (map snd HOMEWORK_VERDICTS) ->
  announcement n1 v1 = announcement n2 v2 ->
  n1 = n2 /\ v1 = v2.
Proof.
  intros H1 H2 H. unfold announcement in H.
  do 2 apply append_inj in H.
  apply (f_equal list_ascii_of_string) in H.
  rewrite !list_ascii_of_string_app in H.
  apply (f_equal (@rev ascii)) in H. rewrite !rev_app_distr in H.
  cbn [HOMEWORK_VERDICTS map snd In] in H1, H2.
  destruct H1 as [<-|[<-|[<-|[]]]]; destruct H2 as [<-|[<-|[<-|[]]]];
    cbn in H; try discriminate H;
    (split; [|reflexivity]);
    repeat (injection H as H);
    apply list_ascii_of_string_inj;
    rewrite <- (rev_involutive (list_ascii_of_string n1)),
            <- (rev_involutive (list_ascii_of_string n2));
    now rewrite H.
Qed.

Lemma verdicts_differ (s1 s2 v1 v2 : string) :
  In (s1, v1) HOMEWORK_VERDICTS -> In (s2, v2) HOMEWORK_VERDICTS ->
  v1 = v2 -> s1 = s2.
Proof.
  cbn [HOMEWORK_VERDICTS In]. intros H1 H2 Hv.
  destruct H1 as [H1|[H1|[H1|[]]]]; injection H1 as <- <-;
    destruct H2 as [H2|[H2|[H2|[]]]]; injection H2 as <- <-;
    try reflexivity; discriminate Hv.
Qed.

Lemma table_verdict (status verdict : string) :
  In (status, verdict) HOMEWORK_VERDICTS -> In verdict (map snd HOMEWORK_VERDICTS).
Proof. intros H. apply (in_map snd) in H. exact H. Qed.

(** X3.  No change is missed.  When [current_status] announces a verdict of
    the table for some homework, and the poll finds first a homework with
    another name or another status of the table, the turn calls the bot,
    first with the new announcement, and [current_status] becomes that
    announcement. *)
Theorem every_change_is_announced (e : env) (bot : Bot) (timestamp : Z) (w : world)
        (name0 status0 verdict0 name status verdict : string) :
  In (status0, verdict0) HOMEWORK_VERDICTS ->
  In (status, verdict) HOMEWORK_VERDICTS ->
  current_status w = announcement name0 verdict0 ->
  polled e (length (requests w)) timestamp status name ->
  name0 <> name \/ status0 <> status ->
  current_status (snd (poll_cycle e bot timestamp w)) = announcement name verdict
  /\ exists more,
       sent (snd (poll_cycle e bot timestamp w))
       = (sent w ++ (TELEGRAM_CHAT_ID e, announcement name verdict) :: more)%list.
Proof.
  intros Hold Hnew Hcur (first & Hobs & Hst) Hchange.
  apply (poll_cycle_new e bot timestamp w first); [exact Hobs| |].
  - now apply parse_status_known with (status := status).
  - rewrite Hcur. intros H.
    apply announcement_read_back in H;
      [|now apply table_verdict with status0|now apply table_verdict with status].
    destruct H as [Hn Hv]. destruct Hchange as [Hc|Hc]; [now elim Hc|].
    elim Hc. exact (verdicts_differ _ _ _ _ Hold Hnew Hv).
Qed.

Lemma every_change_is_announced_witness :
  current_status
    (snd (poll_cycle
            (Sample.surroundings Sample.variables Sample.review_then_approval
                                 Sample.delivering)
            Sample.delivering 1697328000
            (mkWorld (announcement "hw04" "Работа взята на проверку ревьюером.")
                     [] [] [] [])))
  = announcement "hw05" "Работа взята на проверку ревьюером.".
Proof.
  apply (every_change_is_announced
           (Sample.surroundings Sample.variables Sample.review_then_approval
                                Sample.delivering)
           Sample.delivering 1697328000
           (mkWorld (announcement "hw04" "Работа взята на проверку ревьюером.")
                    [] [] [] [])
           "hw04" "reviewing" "Работа взята на проверку ревьюером."
           "hw05" "reviewing" "Работа взята на проверку ревьюером.").
  - right. left. reflexivity.
  - right. left. reflexivity.
  - reflexivity.
  - exists (Sample.homework "reviewing" "hw05").
    split; eexists; [eexists|]; repeat split.
  - left. discriminate.
Defined.

(** ** Errors that are passed on *)

(** X4.  [send_message] never lets a [TelegramError] out, whatever the bot
    does: the error of a refusal is turned into the [TypeError] of the
    call, and the other errors are no [TelegramError] to begin with.  The
    clause [except telegram.error.TelegramError] of [main] thus never sees
    an error of [send_message]. *)
Theorem send_message_never_TelegramError (e : env) (bot : Bot) (message : string)
        (w : world) (y : exn) :
  fst (send_message e bot message w) = Raise y ->
  isinstance y TelegramError = false
  /\ exists x, bot_send_message bot (length (sent w)) (TELEGRAM_CHAT_ID e) message
               = Some x.
Proof.
  intros H. split; [exact (send_message_raises e bot message w y H)|].
  revert H. unfold send_message, try_except, bind, Bot_send_message.
  destruct (bot_send_message bot (length (sent w)) (TELEGRAM_CHAT_ID e) message)
    as [x|]; [now exists x|discriminate].
Qed.

Lemma send_message_never_TelegramError_witness :
  isinstance (Exn TypeError "'TelegramError' object is not callable"
                  (Some Sample.chat_not_found)) TelegramError = false.
Proof.
  apply (send_message_never_TelegramError
           (Sample.surroundings Sample.variables Sample.review_then_approval
                                Sample.refusing)
           Sample.refusing "hello" start).
  reflexivity.
Defined.

(** X5.  An error of the bot that is not a [TelegramError] leaves
    [send_message] as it is, and nothing is logged, neither the success
    nor the failure. *)
Theorem send_message_passes_other_errors (e : env) (bot : Bot) (message : string)
        (w : world) (x : exn) :
  bot_send_message bot (length (sent w)) (TELEGRAM_CHAT_ID e) message = Some x ->
  isinstance x TelegramError = false ->
  send_message e bot message w
  = (Raise x,
     mkWorld (current_status w) (log w) (requests w)
             (sent w ++ [(TELEGRAM_CHAT_ID e, message)]) (slept w)).
Proof.
  intros H I. unfold send_message, try_except, bind, Bot_send_message.
  rewrite H, I. reflexivity.
Qed.

Lemma send_message_passes_other_errors_witness :
  send_message (Sample.surroundings Sample.variables Sample.review_then_approval
                                    Trouble.broken)
               Trouble.broken "hello" start
  = (Raise (Exn (Subclass "RuntimeError" Exception) "event loop closed" None),
     mkWorld EmptyString [] [] [(Some "271828", "hello")] []).
Proof.
  apply (send_message_passes_other_errors
           (Sample.surroundings Sample.variables Sample.review_then_approval
                                Trouble.broken)
           Trouble.broken "hello" start); reflexivity.
Defined.

Lemma issubclass_RequestException (c : exn_class) :
  issubclass c HTTPError = true \/ issubclass c Timeout = true
  \/ issubclass c ConnectionError = true ->
  issubclass c RequestException = true.
Proof.
  unfold issubclass.
  induction c; cbn [bases existsb class_eqb orb];
    try (intros [H|[H|H]]; discriminate H); try reflexivity.
  exact IHc.
Qed.

(** X6.  [get_api_answer] handles the errors of [json] and of [requests]
    only: any other error, of the request or of the decoding, leaves the
    call as it is. *)
Theorem get_api_answer_passes_other_errors (e : env) (timestamp : Z) (w : world)
        (x : exn) :
  next_answer e timestamp w = Fails x
  \/ next_answer e timestamp w = Responds 200 (Raise x) ->
  isinstance x JSONDecodeError = false ->
  isinstance x RequestException = false ->
  fst (get_api_answer e timestamp w) = Raise x.
Proof.
  unfold next_answer. intros H J R.
  assert (N : isinstance x HTTPError = false /\ isinstance x Timeout = false
              /\ isinstance x ConnectionError = false).
  { unfold isinstance in *.
    destruct (issubclass (exn_cls x) HTTPError) eqn:A;
      [rewrite issubclass_RequestException in R; [discriminate|auto]|].
    destruct (issubclass (exn_cls x) Timeout) eqn:B;
      [rewrite issubclass_RequestException in R; [discriminate|auto]|].
    destruct (issubclass (exn_cls x) ConnectionError) eqn:C;
      [rewrite issubclass_RequestException in R; [discriminate|auto]|].
    auto. }
  destruct N as (A & B & C).
  unfold get_api_answer, try_except, bind, Requests_get.
  destruct H as [H|H]; rewrite H; cbn; rewrite J, A, B, C, R; reflexivity.
Qed.

Lemma get_api_answer_passes_other_errors_witness :
  fst (get_api_answer
         (Sample.surroundings Sample.variables
            (Sample.always (Fails (Exn (Subclass "MemoryError" Exception)
                                       "out of memory" None)))
            Sample.delivering) 1697328000 start)
  = Raise (Exn (Subclass "MemoryError" Exception) "out of memory" None).
Proof.
  apply get_api_answer_passes_other_errors; [left|..]; reflexivity.
Defined.

(** ** Turns without an announcement *)

(** X7.  A poll that finds no homework at all is a silent turn: one
    request, one sleep, no message, no log line, and [current_status]
    stays. *)
Theorem empty_homeworks_turn (e : env) (bot : Bot) (timestamp : Z) (w : world)
        (items : list (string * pyval)) :
  next_answer e timestamp w = Responds 200 (Ok (PDict items)) ->
  dict_get "error" items = None ->
  dict_get "code" items = None ->
  dict_get "homeworks" items = Some (PList []) ->
  poll_cycle e bot timestamp w
  = (Ok tt,
     mkWorld (current_status w) (log w)
             (requests w ++ [mkRequest ENDPOINT (HEADERS e) timestamp])
             (sent w) (slept w ++ [RETRY_PERIOD])).
Proof.
  intros H He Hc Hh.
  assert (G : get_api_answer e timestamp w
              = (Ok (PDict items),
                 mkWorld (current_status w) (log w)
                         (requests w ++ [mkRequest ENDPOINT (HEADERS e) timestamp])
                         (sent w) (slept w))).
  { rewrite (surjective_pairing (get_api_answer e timestamp w)).
    rewrite get_api_answer_world, (get_api_answer_dict _ _ _ items H), He, Hc.
    reflexivity. }
  unfold poll_cycle, try_except, bind. rewrite G. unfold lift, check_response.
  rewrite Hh. reflexivity.
Qed.

Lemma empty_homeworks_turn_witness :
  poll_cycle
    (Sample.surroundings Sample.variables
       (Sample.always (Responds 200 (Ok (PDict [("homeworks", PList [])]))))
       Sample.refusing)
    Sample.refusing 1697328000 start
  = (Ok tt,
     mkWorld EmptyString []
             [mkRequest "https://practicum.yandex.ru/api/user_api/homework_statuses/"
                        [("Authorization", "OAuth y0_practicum")] 1697328000]
             [] [600]).
Proof.
  apply (empty_homeworks_turn
           (Sample.surroundings Sample.variables
              (Sample.always (Responds 200 (Ok (PDict [("homeworks", PList [])]))))
              Sample.refusing)
           Sample.refusing 1697328000 start [("homeworks", PList [])]);
    reflexivity.
Defined.

Lemma check_response_error (response : pyval) (x : exn) :
  check_response response = Raise x -> isinstance x TelegramError = false.
Proof.
  unfold check_response.
  destruct response; try (intros [= <-]; reflexivity).
  destruct (dict_get "homeworks" items) as [value|];
    [destruct value|]; try discriminate; intros [= <-]; reflexivity.
Qed.

Lemma parse_status_error (homework : pyval) (x : exn) :
  parse_status homework = Raise x -> isinstance x TelegramError = false.
Proof.
  destruct homework; try (cbn; intros [= <-]; reflexivity).
  unfold parse_status, getitem.
  destruct (dict_get "status" items) as [status|];
    [|cbn; intros [= <-]; reflexivity].
  destruct (dict_get "homework_name" items) as [name|];
    [|cbn; intros [= <-]; reflexivity].
  unfold find_verdict.
  destruct status; cbn [hashable]; try (intros [= <-]; reflexivity).
  destruct (verdict_of HOMEWORK_VERDICTS s); [discriminate|].
  intros [= <-]. reflexivity.
Qed.

Lemma turn_fails_class (e : env) (timestamp : Z) (w : world) (x : exn) :
  turn_fails e timestamp w x -> isinstance x TelegramError = false.
Proof.
  intros [[_ H]|(response & _ & [H|(first & rest & _ & H)])].
  - exact H.
  - exact (check_response_error _ _ H).
  - exact (parse_status_error _ _ H).
Qed.

(** The world in which the handlers of a failed turn start: the request
    has been made, nothing else has happened. *)
Lemma failed_turn (e : env) (bot : Bot) (timestamp : Z) (w : world) (x : exn) :
  turn_fails e timestamp w x ->
  poll_cycle e bot timestamp w
  = ((logging ERROR (failure_notice x) ;;
      send_message e bot (failure_notice x) ;;
      ret tt) ;;
     time_sleep RETRY_PERIOD)
      (mkWorld (current_status w) (log w)
               (requests w ++ [mkRequest ENDPOINT (HEADERS e) timestamp])
               (sent w) (slept w)).
Proof.
  intros Hfail. pose proof (turn_fails_class _ _ _ _ Hfail) as Hclass.
  pose proof (get_api_answer_world e timestamp w) as Hw.
  unfold turn_fails in Hfail.
  unfold poll_cycle, try_except, bind at 1 2 3.
  destruct (get_api_answer e timestamp w) as [r w1]. cbn [fst snd] in *.
  subst w1. destruct Hfail as [[-> _]|(response & -> & Hrest)].
  - rewrite Hclass, isinstance_Exception. reflexivity.
  - unfold bind at 1, lift at 1.
    destruct Hrest as [->|(first & rest & -> & Hparse)].
    + rewrite Hclass, isinstance_Exception. reflexivity.
    + unfold bind at 1, lift at 1. rewrite Hparse.
      rewrite Hclass, isinstance_Exception. reflexivity.
Qed.

Lemma report_run (e : env) (bot : Bot) (text : string) (w : world) :
  (logging ERROR text ;; send_message e bot text ;; ret tt) w
  = let (r, w') :=
      send_message e bot text
                   (mkWorld (current_status w) (log w ++ [(ERROR, text)])
                            (requests w) (sent w) (slept w)) in
    match r with
    | Ok _ => (Ok tt, w')
    | Raise z => (Raise z, w')
    end.
Proof. reflexivity. Qed.

Lemma reported_turn (e : env) (bot : Bot) (timestamp : Z) (w : world) (x : exn) :
  turn_fails e timestamp w x ->
  bot_send_message bot (length (sent w)) (TELEGRAM_CHAT_ID e) (failure_notice x)
  = None ->
  poll_cycle e bot timestamp w
  = (Ok tt,
     mkWorld (current_status w)
             (log w ++ [(ERROR, failure_notice x)]
                   ++ [(DEBUG, "Сообщение отправлено успешно")])
             (requests w ++ [mkRequest ENDPOINT (HEADERS e) timestamp])
             (sent w ++ [(TELEGRAM_CHAT_ID e, failure_notice x)])
             (slept w ++ [RETRY_PERIOD])).
Proof.
  intros Hfail Hbot. rewrite (failed_turn e bot timestamp w x Hfail).
  unfold bind at 1. rewrite report_run.
  rewrite send_message_delivered by exact Hbot.
  cbn. now rewrite <- app_assoc.
Qed.

(** X8.  A turn that fails before it announces anything (the request
    raises, the response is malformed, the status is unknown) is reported
    when the bot delivers: the failure is logged at error level, the chat
    gets one notice with the text of the exception, [current_status] is
    left as it was, and the loop sleeps and goes on. *)
Theorem failure_is_reported (e : env) (bot : Bot) (timestamp : Z) (w : world)
        (x : exn) :
  turn_fails e timestamp w x ->
  bot_send_message bot (length (sent w)) (TELEGRAM_CHAT_ID e) (failure_notice x)
  = None ->
  poll_cycle e bot timestamp w
  = (Ok tt,
     mkWorld (current_status w)
             (log w ++ [(ERROR, failure_notice x)]
                   ++ [(DEBUG, "Сообщение отправлено успешно")])
             (requests w ++ [mkRequest ENDPOINT (HEADERS e) timestamp])
             (sent w ++ [(TELEGRAM_CHAT_ID e, failure_notice x)])
             (slept w ++ [RETRY_PERIOD])).
Proof. apply reported_turn. Qed.

Lemma failure_is_reported_witness :
  sent (snd (poll_cycle (Trouble.endpoint_down Sample.delivering)
                        Sample.delivering 1697328000 start))
  = [(Some "271828",
      "Сбой в работе программы: Неверный ответ "
      ++ "https://practicum.yandex.ru/api/user_api/homework_statuses/: 503")].
Proof.
  rewrite (failure_is_reported
             (Trouble.endpoint_down Sample.delivering) Sample.delivering
             1697328000 start
             (Exn ResponseError
                ("Неверный ответ "
                 ++ "https://practicum.yandex.ru/api/user_api/homework_statuses/: 503")
                None)).
  - reflexivity.
  - left. split; reflexivity.
  - reflexivity.
Defined.

(** ** Before the loop *)

Lemma main_without_tokens (e : env) (cycles : nat) (w : world) :
  existsb falsy [PRACTICUM_TOKEN e; TELEGRAM_TOKEN e; TELEGRAM_CHAT_ID e] = true ->
  exists text,
    main e cycles w
    = (Raise (Exn MissTokenError text None),
       mkWorld (current_status w) (log w ++ [(CRITICAL, text)]) (requests w)
               (sent w) (slept w)).
Proof.
  intros Htokens. destruct (check_tokens_missing e w Htokens) as (text & E & _).
  exists text. unfold main, bind at 1. rewrite E. reflexivity.
Qed.

Lemma main_without_bot (e : env) (cycles : nat) (w : world) (x : exn) :
  existsb falsy [PRACTICUM_TOKEN e; TELEGRAM_TOKEN e; TELEGRAM_CHAT_ID e] = false ->
  telegram_Bot e (TELEGRAM_TOKEN e) = Raise x ->
  main e cycles w
  = (Raise (call_instance x ("Бот некорректно проинициализировался : " ++ exn_str x)),
     mkWorld EmptyString
             (log w ++ [(ERROR, "Бот некорректно проинициализировался : " ++ exn_str x)])
             (requests w) (sent w) (slept w)).
Proof.
  intros Htokens Hbot.
  unfold main, bind at 1. rewrite (check_tokens_set e w Htokens).
  unfold bind at 1. cbn [set_current_status].
  unfold bind at 1, try_except, lift. rewrite Hbot, isinstance_Exception.
  reflexivity.
Qed.

(** X9.  [main] reaches the loop only with the three credentials and a
    bot.  With a credential missing it stops on [MissTokenError]; with the
    credentials there and the construction of the bot failing, it logs the
    failure at error level and stops on the [TypeError] of calling the
    caught exception.  Either way no request has been made, no message
    sent, and there was no sleep. *)
Theorem main_stops_before_the_loop (e : env) (cycles : nat) (w : world) :
  (existsb falsy [PRACTICUM_TOKEN e; TELEGRAM_TOKEN e; TELEGRAM_CHAT_ID e] = true ->
   exists text,
     fst (main e cycles w) = Raise (Exn MissTokenError text None)
     /\ log (snd (main e cycles w)) = (log w ++ [(CRITICAL, text)])%list
     /\ requests (snd (main e cycles w)) = requests w
     /\ sent (snd (main e cycles w)) = sent w
     /\ slept (snd (main e cycles w)) = slept w)
  /\ (forall x,
         existsb falsy [PRACTICUM_TOKEN e; TELEGRAM_TOKEN e; TELEGRAM_CHAT_ID e]
         = false ->
         telegram_Bot e (TELEGRAM_TOKEN e) = Raise x ->
         exists y,
           fst (main e cycles w) = Raise y
           /\ exn_cls y = TypeError /\ exn_context y = Some x
           /\ log (snd (main e cycles w))
              = (log w ++ [(ERROR, ("Бот некорректно проинициализировался : "
                                    ++ exn_str x)%string)])%list
           /\ requests (snd (main e cycles w)) = requests w
           /\ sent (snd (main e cycles w)) = sent w
           /\ slept (snd (main e cycles w)) = slept w).
Proof.
  split.
  - intros Htokens.
    destruct (main_without_tokens e cycles w Htokens) as (text & ->).
    exists text. repeat split.
  - intros x Htokens Hbot. rewrite (main_without_bot e cycles w x Htokens Hbot).
    eexists. repeat split.
Qed.

Lemma main_stops_before_the_loop_witness :
  (exists text,
      fst (main (Sample.surroundings [("PRACTICUM_TOKEN", "y0_practicum")]
                   Sample.review_then_approval Sample.delivering) 5 start)
      = Raise (Exn MissTokenError text None))
  /\ (exists y,
         fst (main Trouble.without_bot 5 start) = Raise y
         /\ exn_cls y = TypeError
         /\ requests (snd (main Trouble.without_bot 5 start)) = []).
Proof.
  split.
  - destruct (proj1 (main_stops_before_the_loop
                       (Sample.surroundings [("PRACTICUM_TOKEN", "y0_practicum")]
                          Sample.review_then_approval Sample.delivering) 5 start)
                    eq_refl) as (text & E & _).
    exists text. exact E.
  - destruct (proj2 (main_stops_before_the_loop Trouble.without_bot 5 start)
                    Trouble.invalid_token eq_refl eq_refl)
      as (y & E & C & _ & _ & R & _).
    exists y. auto.
Defined.

(** ** A bot that delivers *)

Lemma poll_cycle_delivering (e : env) (bot : Bot) (timestamp : Z) (w : world) :
  (forall n chat text, bot_send_message bot n chat text = None) ->
  fst (poll_cycle e bot timestamp w) = Ok tt.
Proof.
  intros Hbot. unfold poll_cycle, bind at 1, try_except.
  match goal with
  | |- context [?body w] => destruct (body w) as [[[]|x] w1]
  end; [reflexivity|].
  destruct (isinstance x TelegramError); [reflexivity|].
  rewrite isinstance_Exception. unfold bind. cbn [logging].
  rewrite send_message_delivered by apply Hbot. reflexivity.
Qed.

(** X10.  With the credentials there and a bot that delivers every
    message, nothing the endpoint does ends [main]: after any number of
    turns the loop is still turning, and it has made one request for each
    turn. *)
Theorem main_never_stops (e : env) (bot : Bot) (cycles : nat) :
  existsb falsy [PRACTICUM_TOKEN e; TELEGRAM_TOKEN e; TELEGRAM_CHAT_ID e] = false ->
  telegram_Bot e (TELEGRAM_TOKEN e) = Ok bot ->
  (forall n chat text, bot_send_message bot n chat text = None) ->
  fst (main e cycles start) = Ok tt
  /\ length (requests (snd (main e cycles start))) = cycles.
Proof.
  intros Htokens Hbuilt Hbot.
  assert (Hgo : fst (main e cycles start) = Ok tt).
  { rewrite (main_runs e bot cycles start Htokens Hbuilt).
    generalize (mkWorld EmptyString (log start) (requests start) (sent start)
                        (slept start)).
    induction cycles as [|n IH]; intros w; [reflexivity|].
    rewrite while_True_S.
    pose proof (poll_cycle_delivering e bot (initial_timestamp e) w Hbot) as H.
    destruct (poll_cycle e bot (initial_timestamp e) w) as [[[]|x] w1];
      [apply IH|discriminate H]. }
  split; [exact Hgo|].
  destruct (main_requests e cycles start) as (made & Hreq & _ & Hlen).
  rewrite Hreq. cbn [requests start app]. now apply Hlen.
Qed.

Lemma main_never_stops_witness :
  fst (main (Trouble.endpoint_down Sample.delivering) 4 start) = Ok tt
  /\ length (requests (snd (main (Trouble.endpoint_down Sample.delivering) 4 start)))
     = 4%nat.
Proof.
  apply (main_never_stops (Trouble.endpoint_down Sample.delivering)
                          Sample.delivering 4).
  - reflexivity.
  - reflexivity.
  - intros n chat text. reflexivity.
Defined.

(** ** How the loop ends *)





(** ** An outage *)

(** X12.  While the endpoint answers with a status other than 200, every
    turn sends the same failure notice again: after [n] turns with a bot
    that delivers, the chat has got [n] notices, and [current_status] is
    what it was. *)
Theorem outage_is_reported_every_turn (e : env) (bot : Bot) (timestamp : Z)
        (status_code : Z) (n : nat) :
  status_code <> 200 ->
  (forall k, exists json,
        requests_get e k (mkRequest ENDPOINT (HEADERS e) timestamp)
        = Responds status_code json) ->
  (forall k chat text, bot_send_message bot k chat text = None) ->
  forall w,
    fst (while_True n (poll_cycle e bot timestamp) w) = Ok tt
    /\ sent (snd (while_True n (poll_cycle e bot timestamp) w))
       = (sent w
          ++ repeat (TELEGRAM_CHAT_ID e,
                     failure_notice
                       (Exn ResponseError
                            ("Неверный ответ " ++ ENDPOINT ++ ": "
                             ++ int_str status_code) None)) n)%list
    /\ current_status (snd (while_True n (poll_cycle e bot timestamp) w))
       = current_status w.
Proof.
  intros Hcode Hdown Hbot.
  induction n as [|n IH]; intros w.
  - cbn. now rewrite app_nil_r.
  - rewrite while_True_S.
    destruct (Hdown (length (requests w))) as (json & Hanswer).
    rewrite (reported_turn e bot timestamp w
               (Exn ResponseError
                    ("Неверный ответ " ++ ENDPOINT ++ ": " ++ int_str status_code)
                    None)).
    + match goal with
      | |- context [while_True n _ ?w1] => destruct (IH w1) as (Hgo & Hsent & Hcur)
      end.
      split; [exact Hgo|]. split; [|exact Hcur].
      rewrite Hsent. cbn [sent repeat]. now rewrite <- app_assoc.
    + left. split; [|reflexivity].
      exact (get_api_answer_bad_status e timestamp w status_code json Hanswer Hcode).
    + apply Hbot.
Qed.

Lemma outage_is_reported_every_turn_witness :
  sent (snd (while_True 3
               (poll_cycle (Trouble.endpoint_down Sample.delivering)
                           Sample.delivering 1697328000) start))
  = repeat (Some "271828",
            "Сбой в работе программы: Неверный ответ "
            ++ "https://practicum.yandex.ru/api/user_api/homework_statuses/: 503") 3.
Proof.
  apply (outage_is_reported_every_turn
           (Trouble.endpoint_down Sample.delivering) Sample.delivering
           1697328000 503 3).
  - discriminate.
  - intros k. eexists. reflexivity.
  - intros k chat text. reflexivity.
Defined.

(** ** Sleeping *)

Section Preserves.

Context {X : Type} (field : world -> X).

Lemma preserves_ret {A} (a : A) : preserves field (ret a).
Proof. intros w. reflexivity. Qed.

Lemma preserves_raise {A} (x : exn) : preserves field (@raise A x).
Proof. intros w. reflexivity. Qed.

Lemma preserves_lift {A} (r : result A) : preserves field (lift r).
Proof. intros w. reflexivity. Qed.

Lemma preserves_bind {A B} (c : M A) (k : A -> M B) :
  preserves field c -> (forall a, preserves field (k a)) ->
  preserves field (bind c k).
Proof.
  intros Hc Hk w. unfold bind. specialize (Hc w).
  destruct (c w) as [[a|x] w1]; cbn in *; [|exact Hc].
  now rewrite (Hk a w1).
Qed.

Lemma preserves_try {A} (body : M A) (handlers : exn -> option (M A)) :
  preserves field body ->
  (forall x handler, handlers x = Some handler -> preserves field handler) ->
  preserves field (try_except body handlers).
Proof.
  intros Hb Hh w. unfold try_except. specialize (Hb w).
  destruct (body w) as [[a|x] w1]; cbn in *; [exact Hb|].
  destruct (handlers x) as [handler|] eqn:E; [|exact Hb].
  now rewrite (Hh x handler E w1).
Qed.

End Preserves.

Lemma preserves_slept_send (e : env) (bot : Bot) (message : string) :
  preserves slept (send_message e bot message).
Proof. intros w. now destruct (send_message_world e bot message w) as (_ & _ & _ & H). Qed.

Lemma preserves_slept_get_api_answer (e : env) (timestamp : Z) :
  preserves slept (get_api_answer e timestamp).
Proof. intros w. now rewrite get_api_answer_world. Qed.

Lemma preserves_slept_logging (l : level) (text : string) :
  preserves slept (logging l text).
Proof. intros w. reflexivity. Qed.

Create HintDb sleeps.

#[local] Hint Resolve preserves_ret preserves_raise preserves_lift
  preserves_slept_send preserves_slept_get_api_answer preserves_slept_logging
  : sleeps.

(** A turn sleeps once, at its end, and only when no exception is left. *)
Lemma poll_cycle_sleeps (e : env) (bot : Bot) (timestamp : Z) (w : world) :
  slept (snd (poll_cycle e bot timestamp w))
  = match fst (poll_cycle e bot timestamp w) with
    | Ok _ => (slept w ++ [RETRY_PERIOD])%list
    | Raise _ => slept w
    end.
Proof.
  destruct (poll_cycle e bot timestamp w) as [r wf] eqn:E. revert E.
  unfold poll_cycle, bind at 1.
  match goal with
  | |- context [try_except ?body ?handlers w] =>
      assert (H : preserves slept (try_except body handlers));
      [|specialize (H w); destruct (try_except body handlers w) as [[[]|x] w1]]
  end.
  - apply preserves_try.
    + apply preserves_bind; [auto with sleeps|]. intros response.
      apply preserves_bind; [auto with sleeps|].
      intros [|first rest]; [auto with sleeps|].
      apply preserves_bind; [auto with sleeps|]. intros verdict.
      apply preserves_bind; [intros w0; reflexivity|]. intros current.
      destruct (negb (current =? verdict)%string); [|auto with sleeps].
      apply preserves_bind; [intros w0; reflexivity|]. intros _.
      apply preserves_bind; [intros w0; reflexivity|]. intros current'.
      apply preserves_bind; auto with sleeps.
    + intros x handler. by_class x; intros [= <-]; [auto with sleeps|].
      apply preserves_bind; [auto with sleeps|]. intros _.
      apply preserves_bind; auto with sleeps.
  - cbn in *. intros [= <- <-]. cbn. now rewrite H.
  - cbn in *. intros [= <- <-]. exact H.
Qed.

Lemma loop_sleeps (e : env) (bot : Bot) (timestamp : Z) (n : nat) :
  forall w,
  exists k,
    slept (snd (while_True n (poll_cycle e bot timestamp) w))
    = (slept w ++ repeat RETRY_PERIOD k)%list
    /\ match fst (while_True n (poll_cycle e bot timestamp) w) with
       | Ok _ =>
           k = n
           /\ length (requests (snd (while_True n (poll_cycle e bot timestamp) w)))
              = (length (requests w) + k)%nat
       | Raise _ =>
           (k < n)%nat
           /\ length (requests (snd (while_True n (poll_cycle e bot timestamp) w)))
              = (length (requests w) + k + 1)%nat
       end.
Proof.
  induction n as [|n IH]; intros w.
  - exists 0%nat. cbn. rewrite app_nil_r. auto.
  - rewrite while_True_S.
    pose proof (poll_cycle_sleeps e bot timestamp w) as Hs.
    pose proof (requesting_poll_cycle e bot timestamp w) as Hr.
    destruct (poll_cycle e bot timestamp w) as [[[]|x] w1]; cbn [fst snd] in *.
    + destruct (IH w1) as (k & Hk & Hrest). exists (S k).
      rewrite Hk, Hs, <- app_assoc. split; [reflexivity|].
      rewrite Hr, length_app in Hrest. cbn [length] in Hrest.
      destruct (fst (while_True n (poll_cycle e bot timestamp) w1));
        destruct Hrest as [Hn Hlen]; rewrite Hlen; split; lia.
    + exists 0%nat. cbn [repeat]. rewrite app_nil_r, Hr, length_app. cbn [length].
      split; [exact Hs|]. split; lia.
Qed.

(** X13.  [main] sleeps [RETRY_PERIOD] seconds and nothing else, once
    after every turn that ends without an exception: the sleeps are never
    more than the requests, at most one fewer, and as many as the turns
    while the loop is still turning. *)
Theorem main_sleeps_after_each_turn (e : env) (cycles : nat) :
  exists k,
    slept (snd (main e cycles start)) = repeat RETRY_PERIOD k
    /\ (k <= length (requests (snd (main e cycles start))) <= k + 1)%nat
    /\ (fst (main e cycles start) = Ok tt -> k = cycles).
Proof.
  destruct (existsb falsy [PRACTICUM_TOKEN e; TELEGRAM_TOKEN e; TELEGRAM_CHAT_ID e])
    eqn:Htokens;
    [|destruct (telegram_Bot e (TELEGRAM_TOKEN e)) as [bot|x] eqn:Hbot].
  - destruct (main_without_tokens e cycles start Htokens) as (text & ->).
    exists 0%nat. cbn. split; [reflexivity|]. split; [lia|discriminate].
  - rewrite (main_runs e bot cycles start Htokens Hbot).
    destruct (loop_sleeps e bot (initial_timestamp e) cycles
                (mkWorld EmptyString (log start) (requests start) (sent start)
                         (slept start))) as (k & Hk & Hrest).
    exists k. split; [exact Hk|].
    destruct (fst (while_True cycles (poll_cycle e bot (initial_timestamp e)) _));
      destruct Hrest as [Hn Hlen]; rewrite Hlen; cbn [requests start length].
    + split; [lia|]. intros _. exact Hn.
    + split; [lia|discriminate].
  - rewrite (main_without_bot e cycles start x Htokens Hbot).
    exists 0%nat. cbn. split; [reflexivity|]. split; [lia|discriminate].
Qed.

Lemma main_sleeps_after_each_turn_witness :
  exists k,
    slept (snd (main (Sample.surroundings Sample.variables
                        Sample.review_then_approval Sample.delivering) 3 start))
    = repeat 600 k
    /\ k = 3%nat.
Proof.
  destruct (main_sleeps_after_each_turn
              (Sample.surroundings Sample.variables Sample.review_then_approval
                                   Sample.delivering) 3) as (k & Hk & _ & Hn).
  exists k. split; [exact Hk|]. apply Hn. reflexivity.
Defined.

(** ** What [current_status] holds *)

Section StatusKept.

Variable P : string -> Prop.

Lemma status_kept_preserves {A} (c : M A) :
  preserves current_status c -> status_kept P c.
Proof. intros H w Hw. now rewrite (H w). Qed.

Lemma status_kept_bind {A B} (c : M A) (k : A -> M B) :
  status_kept P c -> (forall a, status_kept P (k a)) -> status_kept P (bind c k).
Proof.
  intros Hc Hk w Hw. unfold bind. specialize (Hc w Hw).
  destruct (c w) as [[a|x] w1]; cbn in *; [|exact Hc].
  exact (Hk a w1 Hc).
Qed.

Lemma status_kept_bind_lift {A B} (r : result A) (k : A -> M B) :
  (forall a, r = Ok a -> status_kept P (k a)) -> status_kept P (bind (lift r) k).
Proof.
  intros Hk w Hw. unfold bind, lift.
  destruct r as [a|x]; [exact (Hk a eq_refl w Hw)|exact Hw].
Qed.

Lemma status_kept_try {A} (body : M A) (handlers : exn -> option (M A)) :
  status_kept P body ->
  (forall x handler, handlers x = Some handler -> status_kept P handler) ->
  status_kept P (try_except body handlers).
Proof.
  intros Hb Hh w Hw. unfold try_except. specialize (Hb w Hw).
  destruct (body w) as [[a|x] w1]; cbn in *; [exact Hb|].
  destruct (handlers x) as [handler|] eqn:E; [|exact Hb].
  exact (Hh x handler E w1 Hb).
Qed.

Lemma status_kept_set (s : string) : P s -> status_kept P (set_current_status s).
Proof. intros Hs w _. exact Hs. Qed.

Lemma status_kept_while (n : nat) (body : M unit) :
  status_kept P body -> status_kept P (while_True n body).
Proof.
  intros Hb. induction n as [|n IH]; [intros w Hw; exact Hw|].
  cbn [while_True]. apply status_kept_bind; [exact Hb|]. intros _. exact IH.
Qed.

End StatusKept.

Lemma preserves_status_send (e : env) (bot : Bot) (message : string) :
  preserves current_status (send_message e bot message).
Proof. intros w. now destruct (send_message_world e bot message w) as (H & _). Qed.

Lemma preserves_status_get_api_answer (e : env) (timestamp : Z) :
  preserves current_status (get_api_answer e timestamp).
Proof. intros w. now rewrite get_api_answer_world. Qed.

Lemma preserves_status_logging (l : level) (text : string) :
  preserves current_status (logging l text).
Proof. intros w. reflexivity. Qed.

Lemma preserves_status_sleep (seconds : Z) :
  preserves current_status (time_sleep seconds).
Proof. intros w. reflexivity. Qed.

Lemma parse_status_announced (homework : pyval) (sentence : string) :
  parse_status homework = Ok sentence -> announced sentence.
Proof.
  intros H.
  destruct (parse_status_ok _ _ H) as (items & status & name & verdict & _ & _ & _
                                       & Hin & ->).
  right. exists (py_str name), verdict. split; [|reflexivity].
  now apply table_verdict with status.
Qed.

Create HintDb status.

#[local] Hint Resolve status_kept_preserves preserves_ret preserves_raise
  preserves_lift preserves_status_send preserves_status_get_api_answer
  preserves_status_logging preserves_status_sleep : status.

Lemma poll_cycle_announced (e : env) (bot : Bot) (timestamp : Z) :
  status_kept announced (poll_cycle e bot timestamp).
Proof.
  unfold poll_cycle.
  apply status_kept_bind; [|auto with status].
  apply status_kept_try.
  - apply status_kept_bind; [auto with status|]. intros response.
    apply status_kept_bind; [auto with status|].
    intros [|first rest]; [auto with status|].
    apply status_kept_bind_lift. intros verdict Hparse.
    apply status_kept_bind; [intros w Hw; exact Hw|]. intros current.
    destruct (negb (current =? verdict)%string); [|auto with status].
    apply status_kept_bind;
      [apply status_kept_set; exact (parse_status_announced _ _ Hparse)|].
    intros _. apply status_kept_bind; [intros w Hw; exact Hw|]. intros current'.
    apply status_kept_bind; auto with status.
  - intros x handler. by_class x; intros [= <-]; [auto with status|].
    apply status_kept_bind; [auto with status|]. intros _.
    apply status_kept_bind; auto with status.
Qed.

(** X14.  Whatever the endpoint and the bot do, and however far [main]
    gets, [current_status] is empty or is an announcement of a verdict of
    the table: a failure notice never becomes the status that later polls
    are compared with. *)
Theorem current_status_is_an_announcement (e : env) (cycles : nat) :
  announced (current_status (snd (main e cycles start))).
Proof.
  destruct (existsb falsy [PRACTICUM_TOKEN e; TELEGRAM_TOKEN e; TELEGRAM_CHAT_ID e])
    eqn:Htokens;
    [|destruct (telegram_Bot e (TELEGRAM_TOKEN e)) as [bot|x] eqn:Hbot].
  - destruct (main_without_tokens e cycles start Htokens) as (text & ->).
    left. reflexivity.
  - rewrite (main_runs e bot cycles start Htokens Hbot).
    apply status_kept_while; [apply poll_cycle_announced|]. left. reflexivity.
  - rewrite (main_without_bot e cycles start x Htokens Hbot). left. reflexivity.
Qed.

(** ** The day of the start *)

(** X15.  The timestamp of the requests depends on the start only through
    its local day: two starts in the same time zone whose seconds fall on
    the same local day poll from the same timestamp, and a start one day
    later polls from a timestamp one day later. *)
Theorem cursor_of_the_day (e e' : env) :
  utc_offset e' = utc_offset e ->
  (initial_timestamp e + 30 * 86400 <= time_time e'
   < initial_timestamp e + 31 * 86400 ->
   initial_timestamp e' = initial_timestamp e)
  /\ (time_time e' = time_time e + 86400 ->
      initial_timestamp e' = initial_timestamp e + 86400).
Proof.
  intros Hoff. unfold initial_timestamp, time_mktime, date_today. rewrite Hoff.
  split.
  - intros [Hlow Hhigh].
    replace ((time_time e' + utc_offset e) / 86400)
      with ((time_time e + utc_offset e) / 86400); [reflexivity|].
    apply Z.div_unique with
      (r := time_time e' + utc_offset e
            - 86400 * ((time_time e + utc_offset e) / 86400)); lia.
  - intros ->.
    replace (time_time e + 86400 + utc_offset e)
      with (time_time e + utc_offset e + 1 * 86400) by lia.
    rewrite Z.div_add by lia. lia.
Qed.

Lemma cursor_of_the_day_witness :
  initial_timestamp (mkEnv [] Sample.review_then_approval
                           (fun _ => Ok Sample.delivering) 1699920000 0)
  = initial_timestamp (Sample.surroundings Sample.variables
                         Sample.review_then_approval Sample.delivering)
  /\ initial_timestamp (mkEnv [] Sample.review_then_approval
                              (fun _ => Ok Sample.delivering) 1700086400 0)
     = initial_timestamp (Sample.surroundings Sample.variables
                            Sample.review_then_approval Sample.delivering) + 86400.
Proof.
  split.
  - apply (cursor_of_the_day
             (Sample.surroundings Sample.variables Sample.review_then_approval
                                  Sample.delivering)
             (mkEnv [] Sample.review_then_approval
                    (fun _ => Ok Sample.delivering) 1699920000 0)).
    + reflexivity.
    + vm_compute. split; [discriminate|reflexivity].
  - apply (cursor_of_the_day
             (Sample.surroundings Sample.variables Sample.review_then_approval
                                  Sample.delivering)
             (mkEnv [] Sample.review_then_approval
                    (fun _ => Ok Sample.delivering) 1700086400 0));
      reflexivity.
Defined.

(** ** The first homework *)

(** X16.  Of a response, a turn looks at the first homework only: two
    endpoints whose answers are well formed and begin with the same
    homework lead to the same turn, whatever else the answers hold. *)
Theorem only_first_homework_counts (e e' : env) (bot : Bot) (timestamp : Z)
        (w : world) (first : pyval) :
  environ e' = environ e ->
  observes e (length (requests w)) timestamp first ->
  observes e' (length (requests w)) timestamp first ->
  poll_cycle e' bot timestamp w = poll_cycle e bot timestamp w.
Proof.
  intros Henv Hobs Hobs'.
  destruct (get_api_answer_observed _ _ _ _ Hobs) as (items & rest & G & C).
  destruct (get_api_answer_observed _ _ _ _ Hobs') as (items' & rest' & G' & C').
  unfold poll_cycle, try_except, bind. rewrite G, G'. unfold lift. rewrite C, C'.
  unfold send_message, HEADERS, TELEGRAM_CHAT_ID, PRACTICUM_TOKEN, os_getenv.
  rewrite Henv. reflexivity.
Qed.

Lemma only_first_homework_counts_witness :
  poll_cycle
    (Sample.surroundings Sample.variables
       (Sample.always
          (Responds 200
             (Ok (PDict [("homeworks",
                          PList [Sample.homework "reviewing" "hw05";
                                 Sample.homework "approved" "hw04"])]))))
       Sample.delivering)
    Sample.delivering 1697328000 start
  = poll_cycle
      (Sample.surroundings Sample.variables Sample.review_then_approval
                           Sample.delivering)
      Sample.delivering 1697328000 start.
Proof.
  apply only_first_homework_counts with (first := Sample.homework "reviewing" "hw05").
  - reflexivity.
  - eexists. eexists. repeat split.
  - eexists. eexists. repeat split.
Defined.

(** ** The calls of the bot *)

Section Calling.

Variable e : env.

Lemma calling_quiet {A} (c : M A) : preserves sent c -> calling e c.
Proof. intros H w. exists []. rewrite (H w), app_nil_r. auto. Qed.

Lemma calling_bind {A B} (c : M A) (k : A -> M B) :
  calling e c -> (forall a, calling e (k a)) -> calling e (bind c k).
Proof.
  intros Hc Hk w. unfold bind. destruct (Hc w) as (calls & Hs & Hall).
  destruct (c w) as [[a|x] w1]; cbn in *; [|now exists calls].
  destruct (Hk a w1) as (calls' & Hs' & Hall').
  exists (calls ++ calls')%list. rewrite Hs', Hs, <- app_assoc.
  split; [reflexivity|]. apply Forall_app. auto.
Qed.

Lemma calling_bind_lift {A B} (r : result A) (k : A -> M B) :
  (forall a, r = Ok a -> calling e (k a)) -> calling e (bind (lift r) k).
Proof.
  intros Hk w. unfold bind, lift.
  destruct r as [a|x]; [exact (Hk a eq_refl w)|].
  exists []. cbn. rewrite app_nil_r. auto.
Qed.

Lemma calling_try {A} (body : M A) (handlers : exn -> option (M A)) :
  calling e body ->
  (forall x handler, handlers x = Some handler -> calling e handler) ->
  calling e (try_except body handlers).
Proof.
  intros Hb Hh w. unfold try_except. destruct (Hb w) as (calls & Hs & Hall).
  destruct (body w) as [[a|x] w1]; cbn in *; [now exists calls|].
  destruct (handlers x) as [handler|] eqn:E; [|now exists calls].
  destruct (Hh x handler E w1) as (calls' & Hs' & Hall').
  exists (calls ++ calls')%list. rewrite Hs', Hs, <- app_assoc.
  split; [reflexivity|]. apply Forall_app. auto.
Qed.

Lemma calling_send (bot : Bot) (message : string) :
  expected_call e (TELEGRAM_CHAT_ID e, message) ->
  calling e (send_message e bot message).
Proof.
  intros H w. exists [(TELEGRAM_CHAT_ID e, message)].
  destruct (send_message_world e bot message w) as (_ & _ & Hs & _).
  split; [exact Hs|]. constructor; [exact H|constructor].
Qed.

Lemma calling_while (n : nat) (body : M unit) :
  calling e body -> calling e (while_True n body).
Proof.
  intros Hb. induction n as [|n IH].
  - apply calling_quiet. intros w. reflexivity.
  - cbn [while_True]. apply calling_bind; [exact Hb|]. intros _. exact IH.
Qed.

End Calling.

Lemma preserves_sent_get_api_answer (e : env) (timestamp : Z) :
  preserves sent (get_api_answer e timestamp).
Proof. intros w. now rewrite get_api_answer_world. Qed.

Lemma calling_poll_cycle (e : env) (bot : Bot) (timestamp : Z) :
  calling e (poll_cycle e bot timestamp).
Proof.
  unfold poll_cycle.
  apply calling_bind; [|intros _; apply calling_quiet; intros w; reflexivity].
  apply calling_try.
  - apply calling_bind;
      [apply calling_quiet, preserves_sent_get_api_answer|]. intros response.
    apply calling_bind; [apply calling_quiet; intros w; reflexivity|].
    intros [|first rest]; [apply calling_quiet; intros w; reflexivity|].
    apply calling_bind_lift. intros verdict Hparse.
    unfold calling, bind, get_current_status, set_current_status. intros w.
    destruct (negb (current_status w =? verdict)%string);
      [|exists []; cbn; rewrite app_nil_r; auto].
    cbn [current_status].
    match goal with
    | |- context [send_message e bot verdict ?w1] => set (w1' := w1)
    end.
    destruct (calling_send e bot verdict) with (w := w1') as (calls & Hs & Hall).
    + split; [reflexivity|]. left.
      destruct (parse_status_ok _ _ Hparse)
        as (items & status & name & v & _ & _ & _ & Hin & ->).
      exists (py_str name), v. split; [now apply table_verdict with status|].
      reflexivity.
    + exists calls. split; [|exact Hall].
      destruct (send_message e bot verdict w1') as [[u|y] w2]; exact Hs.
  - intros x handler. by_class x; intros [= <-];
      [apply calling_quiet; intros w; reflexivity|].
    apply calling_bind; [apply calling_quiet; intros w; reflexivity|]. intros _.
    apply calling_bind; [|intros _; apply calling_quiet; intros w; reflexivity].
    apply calling_send. split; [reflexivity|]. right. now exists x.
Qed.

(** X17.  Whatever the endpoint and the bot do, [main] calls the bot for
    the chat of [TELEGRAM_CHAT_ID] only, and only with the announcement of
    a verdict of the table or with a failure notice. *)
Theorem main_calls_the_bot_as_expected (e : env) (cycles : nat) :
  Forall (expected_call e) (sent (snd (main e cycles start))).
Proof.
  destruct (existsb falsy [PRACTICUM_TOKEN e; TELEGRAM_TOKEN e; TELEGRAM_CHAT_ID e])
    eqn:Htokens;
    [|destruct (telegram_Bot e (TELEGRAM_TOKEN e)) as [bot|x] eqn:Hbot].
  - destruct (main_without_tokens e cycles start Htokens) as (text & ->).
    constructor.
  - rewrite (main_runs e bot cycles start Htokens Hbot).
    destruct (calling_while e cycles _ (calling_poll_cycle e bot (initial_timestamp e))
                (mkWorld EmptyString (log start) (requests start) (sent start)
                         (slept start))) as (calls & -> & Hall).
    exact Hall.
  - rewrite (main_without_bot e cycles start x Htokens Hbot). constructor.
Qed.
